(** * The grid drawers of qiskit-group-project: drawing, commit and export

    A shallow embedding of [grid_maker.py] (8 x 8 grid, no label) and
    [symbols_maker.py] (5 x 5 grid with a shape label), followed by the
    properties of the drawing and export core.

    The widget object [self] is an explicit record threaded through a small
    state-and-exception monad.  Everything a handler does to the outside
    world (message boxes, the file dialog, the file writes) is logged as an
    [effect], paired with the value of [self] at the moment it happens.
    What the outside world answers (the path typed in the dialog, whether
    the disk accepts the write) is the [world] argument of a handler.

    The canvas calls ([itemconfig], [create_rectangle]) only recolour
    rectangles from the grid already stored; they never write [self.state],
    [self.samples] or the label, and are left out of the embedding. *)

From Stdlib Require Import ZArith Lia.
From Stdlib Require Floats.
From stdpp Require Import base option list list_numbers strings pretty gmap.

Local Open Scope Z_scope.

(** ** Python values shared by both programs *)

(** Exceptions carry the text that [str(exc)] yields. *)
Inductive exception :=
| IndexError (msg : string)
| ValueError (msg : string)
| OverflowError (msg : string)
| OSError (msg : string).

Definition str (exc : exception) : string :=
  match exc with
  | IndexError msg | ValueError msg | OverflowError msg | OSError msg => msg
  end.

Inductive result (A : Type) :=
| Ok (a : A)
| Raise (exc : exception).
Arguments Ok {A} a.
Arguments Raise {A} exc.

(** ** numpy: the array operations the programs call

    A 2-D array is the list of its rows, a 1-D array a list.  Elements are
    [Z]; the fixed-width element types are made explicit by [uint8] and
    [int64] wherever the programs compute with them. *)
Module np.

Definition uint8 (v : Z) : Z := v mod 256.
Definition int64 (v : Z) : Z := (v + 2 ^ 63) mod 2 ^ 64 - 2 ^ 63.

Definition zeros (rows cols : nat) : list (list Z) :=
    replicate rows (replicate cols 0).
#[global] Arguments zeros : simpl never.

  (** [a.flatten()]: C order, a fresh copy. *)
Definition flatten (a : list (list Z)) : list Z := concat a.

  (** [v.any()] on a vector and [a.any()] on a matrix: some element is
      non-zero. *)
Definition any_flat (v : list Z) : bool := existsb (fun x => negb (x =? 0)) v.
Definition any (a : list (list Z)) : bool := existsb any_flat a.

  (** [a.fill(v)], in place, whatever the shape. *)
Definition fill (a : list (list Z)) (v : Z) : list (list Z) :=
    (fun row : list Z => (fun _ => v) <$> row) <$> a.

  (** An integer index into an axis of length [len]: negative indices count
      from the end, anything else out of range is an [IndexError]. *)
Definition index (len : nat) (i : Z) : option nat :=
    if decide (0 <= i < Z.of_nat len) then Some (Z.to_nat i)
    else if decide (- Z.of_nat len <= i < 0) then Some (Z.to_nat (i + Z.of_nat len))
    else None.

  (** [a[r, c]] *)
Definition getitem (a : list (list Z)) (r c : Z) : option Z :=
    i ← index (length a) r;
    row ← a !! i;
    j ← index (length row) c;
    row !! j.

  (** [a[r, c] = v] *)
Definition setitem (a : list (list Z)) (r c v : Z) : option (list (list Z)) :=
    i ← index (length a) r;
    row ← a !! i;
    j ← index (length row) c;
    Some (<[i := <[j := v]> row]> a).

Definition same_length (rows : list (list Z)) : bool :=
    match rows with
    | [] => true
    | r :: rs => forallb (fun r' => Nat.eqb (length r') (length r)) rs
    end.

  (** [np.vstack(rows)] of 1-D arrays. *)
Definition vstack (rows : list (list Z)) : result (list (list Z)) :=
    match rows with
    | [] => Raise (ValueError "need at least one array to concatenate")
    | _ :: _ =>
        if same_length rows then Ok rows
        else Raise (ValueError "all the input array dimensions except for the concatenation axis must match exactly")
    end.

Definition fits_int64 (v : Z) : bool := (- 2 ^ 63 <=? v) && (v <? 2 ^ 63).

  (** [np.array(rows, dtype=int)] of a list of lists of Python integers. *)
Definition array (rows : list (list Z)) : result (list (list Z)) :=
    if negb (same_length rows) then
      Raise (ValueError "setting an array element with a sequence. The requested array has an inhomogeneous shape")
    else if negb (forallb (forallb fits_int64) rows) then
      Raise (OverflowError "Python int too large to convert to C long")
    else Ok rows.

  (** The text [np.savetxt(fname, mat, fmt="%d", delimiter=",")] writes, one
      string per line of the file. *)
Definition savetxt_lines (mat : list (list Z)) : list string :=
    (fun row : list Z => String.concat "," (pretty <$> row)) <$> mat.

End np.

(** ** PIL: single-channel 8-bit images as rows of pixel values *)
Module Image.

  (** [Image.fromarray] of a 2-D uint8 array: mode "L", one pixel an
      element. *)
Definition fromarray (a : list (list Z)) : list (list Z) := a.

Definition getpixel (im : list (list Z)) (x y : nat) : Z :=
    default 0 (im !! y ≫= (.!! x)).

  (** [im.resize((w, h), Image.NEAREST)]: the output pixel takes the value
      of the input pixel under its centre. *)
Definition resize (im : list (list Z)) (size : Z * Z) : list (list Z) :=
    let w0 := Z.of_nat (length (default [] (im !! 0%nat))) in
    let h0 := Z.of_nat (length im) in
    let '(w, h) := size in
    (fun y =>
       (fun x =>
          getpixel im (Z.to_nat (((2 * x + 1) * w0) / (2 * w)))
                      (Z.to_nat (((2 * y + 1) * h0) / (2 * h))))
         <$> seqZ 0 w)
      <$> seqZ 0 h.
#[global] Arguments resize : simpl never.

End Image.

(** ** Tk: pointer events *)
Module Tk.
Record Event := { x : Z; y : Z }.
End Tk.

(** ** What a handler does to the world, and what the world answers *)

Inductive effect :=
| showinfo (title message : string)
| showwarning (title message : string)
| showerror (title message : string)
| asksaveasfilename (answer : string)
| savetxt (fname : string) (lines : list string) (failure : option exception)
| save (fname : string) (im : list (list Z)) (failure : option exception).

(** [filename]: what the save dialog returns (the empty string when the
    user cancels); [disk]: [None] when a write goes through, [Some exc]
    when it raises [exc]. *)
Record world := { filename : string; disk : option exception }.

Definition is_warning (e : effect) : bool :=
  match e with showwarning _ _ => true | _ => false end.
Definition is_error (e : effect) : bool :=
  match e with showerror _ _ => true | _ => false end.
Definition is_dialog (e : effect) : bool :=
  match e with asksaveasfilename _ => true | _ => false end.
(** A file was opened for writing, whatever came of it. *)
Definition is_file_io (e : effect) : bool :=
  match e with savetxt _ _ _ | save _ _ _ => true | _ => false end.
Definition is_written (e : effect) : bool :=
  match e with savetxt _ _ None | save _ _ None => true | _ => false end.
Definition is_failed_write (e : effect) : bool :=
  match e with savetxt _ _ (Some _) | save _ _ (Some _) => true | _ => false end.

(** ** The handler monad: state of [self], exceptions, log of effects *)
Section Handler.
Context {S : Type}.

Definition log : Type := list (effect * S).
Definition M (A : Type) : Type := S -> result A * S * log.

Definition ret {A} (a : A) : M A := fun self => (Ok a, self, []).

Definition bind {A B} (m : M A) (k : A -> M B) : M B :=
    fun self =>
      match m self with
      | (Ok a, self', l) =>
          let '(r, self'', l') := k a self' in (r, self'', l ++ l')
      | (Raise exc, self', l) => (Raise exc, self', l)
      end.

Definition get : M S := fun self => (Ok self, self, []).
Definition put (self' : S) : M unit := fun _ => (Ok tt, self', []).
Definition raise {A} (exc : exception) : M A := fun self => (Raise exc, self, []).

  (** An effect is logged with the state of [self] at that moment. *)
Definition perform (e : effect) : M unit := fun self => (Ok tt, self, [(e, self)]).

  (** [try: m  except Exception as exc: h exc]; what [m] did to [self]
      before raising stays done. *)
Definition try_except {A} (m : M A) (h : exception -> M A) : M A :=
    fun self =>
      match m self with
      | (Ok a, self', l) => (Ok a, self', l)
      | (Raise exc, self', l) =>
          let '(r, self'', l') := h exc self' in (r, self'', l ++ l')
      end.

Definition lift {A} (r : result A) : M A := fun self => (r, self, []).

  (** [filedialog.asksaveasfilename(...)] *)
Definition ask (w : world) : M string :=
    bind (perform (asksaveasfilename (filename w))) (fun _ => ret (filename w)).

  (** [np.savetxt(fname, mat, fmt="%d", delimiter=",")] *)
Definition np_savetxt (w : world) (fname : string) (mat : list (list Z)) : M unit :=
    bind (perform (savetxt fname (np.savetxt_lines mat) (disk w)))
         (fun _ => match disk w with None => ret tt | Some exc => raise exc end).

  (** [img.save(fname)] *)
Definition img_save (w : world) (fname : string) (im : list (list Z)) : M unit :=
    bind (perform (save fname im (disk w)))
         (fun _ => match disk w with None => ret tt | Some exc => raise exc end).

  (** Observations on the outcome of a handler. *)
Definition outcome {A} (o : result A * S * log) : result A := o.1.1.
Definition final {A} (o : result A * S * log) : S := o.1.2.
Definition effects {A} (o : result A * S * log) : list effect := o.2.*1.
Definition history {A} (o : result A * S * log) : log := o.2.

End Handler.
Arguments M : clear implicits.
Arguments log : clear implicits.

Notation "x <~ m ;; k" := (bind m (fun x => k))
  (at level 20, m at level 99, k at level 200, only parsing).
Notation "m ;;; k" := (bind m (fun _ => k))
  (at level 20, k at level 200, only parsing).

(** ** grid_maker.py *)
Module GridMaker.

Definition CELL_SIZE : Z := 50.
Definition GRID_SIZE : Z := 8.

(** The attributes of [self] that the handlers read and write:
    [self.state], a [GRID_SIZE] x [GRID_SIZE] uint8 array (0 white,
    1 black), and [self.samples], the list of stored vectors. *)
Record GridDrawer := { state : list (list Z); samples : list (list Z) }.

(** [__init__] *)
Definition init : GridDrawer :=
  {| state := np.zeros (Z.to_nat GRID_SIZE) (Z.to_nat GRID_SIZE); samples := [] |}.

(** [self.state[r, c]] and [self.state[r, c] = v] *)
Definition state_getitem (r c : Z) : M GridDrawer Z :=
  self <~ get ;;
  match np.getitem (state self) r c with
  | Some v => ret v
  | None => raise (IndexError "index out of bounds")
  end.

Definition state_setitem (r c v : Z) : M GridDrawer unit :=
  self <~ get ;;
  match np.setitem (state self) r c v with
  | Some a => put {| state := a; samples := samples self |}
  | None => raise (IndexError "index out of bounds")
  end.

(** [self.samples.append(vec)] and [self.samples.clear()] *)
Definition samples_append (vec : list Z) : M GridDrawer unit :=
  self <~ get ;; put {| state := state self; samples := samples self ++ [vec] |}.

Definition samples_clear : M GridDrawer unit :=
  self <~ get ;; put {| state := state self; samples := [] |}.

Definition _coords_to_cell (event : Tk.Event) : option (Z * Z) :=
  let col := Tk.x event / CELL_SIZE in
  let row := Tk.y event / CELL_SIZE in
  if (0 <=? row) && (row <? GRID_SIZE) && ((0 <=? col) && (col <? GRID_SIZE))
  then Some (row, col)
  else None.

Definition _toggle_cell (event : Tk.Event) : M GridDrawer unit :=
  match _coords_to_cell event with
  | Some (r, c) =>
      v <~ state_getitem r c ;;
      state_setitem r c (np.uint8 (Z.lxor v 1))
  | None => ret tt
  end.

Definition _paint_motion (event : Tk.Event) : M GridDrawer unit :=
  match _coords_to_cell event with
  | Some (r, c) =>
      v <~ state_getitem r c ;;
      if v =? 0 then state_setitem r c 1 else ret tt
  | None => ret tt
  end.

Definition _erase_cell (event : Tk.Event) : M GridDrawer unit :=
  match _coords_to_cell event with
  | Some (r, c) =>
      v <~ state_getitem r c ;;
      if negb (v =? 0) then state_setitem r c 0 else ret tt
  | None => ret tt
  end.

Definition _erase_motion (event : Tk.Event) : M GridDrawer unit :=
  _erase_cell event.

Definition _reset (update_msg : bool) : M GridDrawer unit :=
  self <~ get ;;
  put {| state := np.fill (state self) 0; samples := samples self |} ;;;
  if update_msg then perform (showinfo "Reiniciar" "Lienzo limpio.") else ret tt.

Definition _next : M GridDrawer unit :=
  self <~ get ;;
  let flat := np.flatten (state self) in
  if np.any_flat flat then
    samples_append flat ;;;
    _reset false ;;;
    self <~ get ;;
    perform (showinfo "Next"
               ("Dibujo #" +:+ pretty (length (samples self))
                  +:+ " almacenado. Puedes crear otro."))
  else
    perform (showwarning "Vacío"
               "El dibujo está vacío. Dibuja algo antes de pulsar Next.").

Definition _save_all (w : world) : M GridDrawer unit :=
  self <~ get ;;
  if bool_decide (samples self = []) && negb (np.any (state self)) then
    perform (showwarning "Nada que guardar" "No hay dibujos almacenados.")
  else
    (if np.any (state self) then samples_append (np.flatten (state self))
     else ret tt) ;;;
    fname <~ ask w ;;
    if bool_decide (fname = "") then ret tt
    else
      try_except
        (self <~ get ;;
         mat <~ lift (np.vstack (samples self)) ;;
         np_savetxt w fname mat ;;;
         perform (showinfo "Guardado"
                    (pretty (length (samples self)) +:+ " dibujos guardados en "
                       +:+ fname)) ;;;
         samples_clear)
        (fun exc =>
           perform (showerror "Error" ("No se pudo guardar: " +:+ str exc))).

Definition _save_png_current (w : world) : M GridDrawer unit :=
  fname <~ ask w ;;
  if bool_decide (fname = "") then ret tt
  else
    try_except
      (self <~ get ;;
       let img :=
         Image.fromarray
           ((fun row : list Z =>
               (fun v => np.uint8 (255 * np.uint8 (np.uint8 (1 - v)))) <$> row)
              <$> state self) in
       img_save w fname img ;;;
       perform (showinfo "Guardado" ("PNG guardado en " +:+ fname)))
      (fun exc =>
         perform (showerror "Error" ("No se pudo guardar: " +:+ str exc))).

End GridMaker.

(** ** symbols_maker.py *)
Module SymbolsMaker.

Definition CELL_SIZE : Z := 50.
Definition GRID_SIZE : Z := 5.

(** [self.state], a [GRID_SIZE] x [GRID_SIZE] array of dtype [int];
    [self.samples], the list of stored vectors (Python lists);
    [self.shape_var], the label selector (0 circle, 1 cross). *)
Record GridDrawer :=
  { state : list (list Z); samples : list (list Z); shape_var : Z }.

(** [__init__] *)
Definition init : GridDrawer :=
  {| state := np.zeros (Z.to_nat GRID_SIZE) (Z.to_nat GRID_SIZE);
     samples := [];
     shape_var := 0 |}.

Definition state_getitem (r c : Z) : M GridDrawer Z :=
  self <~ get ;;
  match np.getitem (state self) r c with
  | Some v => ret v
  | None => raise (IndexError "index out of bounds")
  end.

Definition state_setitem (r c v : Z) : M GridDrawer unit :=
  self <~ get ;;
  match np.setitem (state self) r c v with
  | Some a =>
      put {| state := a; samples := samples self; shape_var := shape_var self |}
  | None => raise (IndexError "index out of bounds")
  end.

Definition samples_append (vec : list Z) : M GridDrawer unit :=
  self <~ get ;;
  put {| state := state self;
         samples := samples self ++ [vec];
         shape_var := shape_var self |}.

Definition _coords_to_cell (event : Tk.Event) : option (Z * Z) :=
  let col := Tk.x event / CELL_SIZE in
  let row := Tk.y event / CELL_SIZE in
  if (0 <=? row) && (row <? GRID_SIZE) && ((0 <=? col) && (col <? GRID_SIZE))
  then Some (row, col)
  else None.

Definition _toggle_cell (event : Tk.Event) : M GridDrawer unit :=
  match _coords_to_cell event with
  | Some (r, c) =>
      v <~ state_getitem r c ;;
      state_setitem r c (np.int64 (1 - v))
  | None => ret tt
  end.

Definition _paint_motion (event : Tk.Event) : M GridDrawer unit :=
  match _coords_to_cell event with
  | Some (r, c) => state_setitem r c 1
  | None => ret tt
  end.

Definition _erase_cell (event : Tk.Event) : M GridDrawer unit :=
  match _coords_to_cell event with
  | Some (r, c) => state_setitem r c 0
  | None => ret tt
  end.

Definition _erase_motion (event : Tk.Event) : M GridDrawer unit :=
  match _coords_to_cell event with
  | Some (r, c) => state_setitem r c 0
  | None => ret tt
  end.

Definition _reset : M GridDrawer unit :=
  self <~ get ;;
  put {| state := np.fill (state self) 0;
         samples := samples self;
         shape_var := 0 |}.

Definition _next : M GridDrawer unit :=
  self <~ get ;;
  if negb (np.any (state self)) then
    perform (showwarning "Warning" "The sample is empty.")
  else
    let vec := np.flatten (state self) ++ [shape_var self] in
    samples_append vec ;;;
    self <~ get ;;
    perform (showinfo "Info"
               ("Sample saved. Total samples: " +:+ pretty (length (samples self)))) ;;;
    _reset.

Definition _save_all (w : world) : M GridDrawer unit :=
  self <~ get ;;
  (if np.any (state self) then
     samples_append (np.flatten (state self) ++ [shape_var self])
   else ret tt) ;;;
  self <~ get ;;
  if bool_decide (samples self = []) then
    perform (showwarning "Warning" "No samples to save.")
  else
    path <~ ask w ;;
    if negb (bool_decide (path = "")) then
      mat <~ lift (np.array (samples self)) ;;
      np_savetxt w path mat ;;;
      perform (showinfo "Info" ("Data saved to " +:+ path))
    else ret tt.

Definition _save_png_current (w : world) : M GridDrawer unit :=
  self <~ get ;;
  if negb (np.any (state self)) then
    perform (showwarning "Warning" "The sample is empty.")
  else
    let img :=
      Image.fromarray
        ((fun row : list Z => (fun v => np.uint8 (np.int64 (v * 255))) <$> row)
           <$> state self) in
    let img := Image.resize img (GRID_SIZE * CELL_SIZE, GRID_SIZE * CELL_SIZE) in
    path <~ ask w ;;
    if negb (bool_decide (path = "")) then
      img_save w path img ;;;
      perform (showinfo "Info" ("Image saved to " +:+ path))
    else ret tt.

End SymbolsMaker.


(** ** Vocabulary of the properties *)

(** The value of cell (row [r], column [c]) of a grid or of an image. *)
Definition cell (a : list (list Z)) (r c : nat) : option Z :=
  a !! r ≫= (.!! c).

Definition is_bit (v : Z) : Prop := v = 0 \/ v = 1.

(** A Grid State of side [n]: [n] rows of [n] cells, every cell 0 or 1. *)
Definition grid_ok (n : nat) (a : list (list Z)) : Prop :=
  length a = n /\ Forall (fun row => length row = n /\ Forall is_bit row) a.

(** A stored Sample: a vector of [len] entries, each 0 or 1. *)
Definition sample_ok (len : nat) (vec : list Z) : Prop :=
  length vec = len /\ Forall is_bit vec.

(** The grid with cell ([i], [j]) replaced by [v]. *)
Definition set_cell (a : list (list Z)) (i j : nat) (v : Z) : list (list Z) :=
  alter (<[j := v]>) i a.

(** [g'] is [g] with the cell addressed by [target] forced to [v] and every
    other cell as it was; with no cell addressed, [g'] is [g]. *)
Definition forced (target : option (Z * Z)) (v : Z) (g g' : list (list Z)) : Prop :=
  match target with
  | Some (r, c) =>
      cell g' (Z.to_nat r) (Z.to_nat c) = Some v /\
      forall r' c' : nat,
        (r', c') <> (Z.to_nat r, Z.to_nat c) -> cell g' r' c' = cell g r' c'
  | None => g' = g
  end.

(** Cell by cell, [g'] is at least (at most) [g]. *)
Definition never_decreases (g g' : list (list Z)) : Prop :=
  forall (r c : nat) (v : Z),
    cell g r c = Some v -> exists v', cell g' r c = Some v' /\ v <= v'.

Definition never_increases (g g' : list (list Z)) : Prop :=
  forall (r c : nat) (v : Z),
    cell g r c = Some v -> exists v', cell g' r c = Some v' /\ v' <= v.

(** One line of an exported table: the integers in decimal, separated by
    commas. *)
Definition csv_line (vec : list Z) : string := String.concat "," (pretty <$> vec).

(** The pointer of [event] is outside a grid of [grid_size] cells of
    [cell_size] pixels: its row or its column is not in [0, grid_size). *)
Definition outside (cell_size grid_size : Z) (event : Tk.Event) : Prop :=
  ~ (0 <= Tk.y event / cell_size < grid_size) \/
  ~ (0 <= Tk.x event / cell_size < grid_size).

(** The states the widgets can be in: a grid of bits of the right side, a
    store of vectors of bits of the right length and, in symbols_maker.py,
    a label that is 0 or 1. *)
Definition gm_ok (self : GridMaker.GridDrawer) : Prop :=
  grid_ok 8 (GridMaker.state self) /\ Forall (sample_ok 64) (GridMaker.samples self).

Definition sm_ok (self : SymbolsMaker.GridDrawer) : Prop :=
  grid_ok 5 (SymbolsMaker.state self) /\
  Forall (sample_ok 26) (SymbolsMaker.samples self) /\
  is_bit (SymbolsMaker.shape_var self).

(** Concrete inputs: the 8 x 8 widget with only cell (0, 0) drawn and
    nothing stored; the 5 x 5 widget with only cell (4, 4) drawn, the label
    on "cross" and nothing stored; a world where the user picks a path and
    the disk accepts the write, and one where the write is refused. *)
Definition drawing8 : GridMaker.GridDrawer :=
  {| GridMaker.state := set_cell (np.zeros 8 8) 0 0 1; GridMaker.samples := [] |}.

Definition drawing5 : SymbolsMaker.GridDrawer :=
  {| SymbolsMaker.state := set_cell (np.zeros 5 5) 4 4 1;
     SymbolsMaker.samples := [];
     SymbolsMaker.shape_var := 1 |}.

Definition disk_accepts (fname : string) : world :=
  {| filename := fname; disk := None |}.

Definition disk_refuses (fname : string) : world :=
  {| filename := fname; disk := Some (OSError "Permission denied") |}.

#[global] Instance outside_dec cs gs event : Decision (outside cs gs event).
Proof. unfold outside. apply _. Defined.

#[global] Instance is_bit_dec v : Decision (is_bit v).
Proof. unfold is_bit. apply _. Defined.

#[global] Instance grid_ok_dec n a : Decision (grid_ok n a).
Proof. unfold grid_ok. apply _. Defined.

#[global] Instance sample_ok_dec len vec : Decision (sample_ok len vec).
Proof. unfold sample_ok. apply _. Defined.

(** The lines of every file that a handler wrote as a table, and every
    image it wrote, in order. *)
Definition tables_written (es : list effect) : list (string * list string) :=
  omap (fun e => match e with
                 | savetxt fname lines None => Some (fname, lines)
                 | _ => None
                 end) es.

Definition images_written (es : list effect) : list (string * list (list Z)) :=
  omap (fun e => match e with
                 | save fname im None => Some (fname, im)
                 | _ => None
                 end) es.

(** ** The widgets: canvas items, bindings, buttons and the main loop

    What [_build_widgets] (and [_draw_grid]) put on the screen and wire to
    the handlers, and how Tk's main loop feeds user input to them.  Layout
    calls ([pack], [grid]) place widgets and are left out. *)

(** Python's [float(z)], [int(f)] and float arithmetic, on binary64. *)
Module py.

(** [float(z)]; exact for the integers below [2 ^ 53] used here. *)
Definition float (z : Z) : PrimFloat.float :=
  match z with
  | Z0 => PrimFloat.of_uint63 (Uint63.of_Z 0)
  | Zpos _ => PrimFloat.of_uint63 (Uint63.of_Z z)
  | Zneg q => PrimFloat.opp (PrimFloat.of_uint63 (Uint63.of_Z (Zpos q)))
  end.

(** [int(f)]: truncation towards zero of a finite float (Python raises on
    infinities and NaN, which do not arise here and are sent to 0). *)
Definition int (f : PrimFloat.float) : Z :=
  match FloatOps.Prim2SF f with
  | SpecFloat.S754_finite sign m e =>
      let magnitude := if 0 <=? e then Z.pos m * 2 ^ e else Z.pos m / 2 ^ (- e) in
      if sign then - magnitude else magnitude
  | _ => 0
  end.

(** The literal [0.3]: the binary64 value nearest to three tenths. *)
Definition literal_0_3 : PrimFloat.float :=
  Eval cbv in PrimFloat.div (float 3) (float 10).

End py.

(** A Tk canvas: its size, background and the items created on it, oldest
    first.  [create] adds an item and returns its id; ids count from 1. *)
Module Canvas.

Inductive item :=
| rectangle (x1 y1 x2 y2 : Z) (outline fill : string)
| text (x y : PrimFloat.float) (label fill : string)
       (font : option (string * Z * string)).

Record t := { width : Z; height : Z; bg : string; items : list item }.

Definition create (it : item) (canvas : t) : Z * t :=
  (Z.of_nat (S (length (items canvas))),
   {| width := width canvas; height := height canvas; bg := bg canvas;
      items := items canvas ++ [it] |}).

(** The item with id [id], if any. *)
Definition find (canvas : t) (id : Z) : option item :=
  if 1 <=? id then items canvas !! Z.to_nat (id - 1) else None.

End Canvas.

(** The value bound to [key] in a table of bindings. *)
Fixpoint assoc {A} (key : string) (table : list (string * A)) : option A :=
  match table with
  | [] => None
  | (k, v) :: rest => if String.eqb key k then Some v else assoc key rest
  end.

(** What the user does: a pointer event on the canvas (with the Tk event
    sequence it matches), a click on a button of the panel, or a click on a
    radio button; [world] is what the outside answers while the handler
    runs. *)
Inductive input :=
| pointer (sequence : string) (event : Tk.Event)
| button (text : string)
| radiobutton (text : string).

(** The command of a button: a method of the widget, or [master.destroy]. *)
Inductive command (S : Type) :=
| method (m : world -> M S unit)
| destroy.
Arguments method {S} m.
Arguments destroy {S}.

Module GridMakerWidgets.
Import GridMaker.

Record Widgets :=
  { canvas : Canvas.t;
    rects : gmap (Z * Z) Z;
    bindings : list (string * (Tk.Event -> M GridDrawer unit));
    buttons : list (string * command GridDrawer) }.

(** The body of the double loop of [_build_widgets]. *)
Definition draw_cell (row col : Z) (acc : Canvas.t * gmap (Z * Z) Z)
  : Canvas.t * gmap (Z * Z) Z :=
  let '(canvas, rects) := acc in
  let x1 := col * CELL_SIZE in
  let y1 := row * CELL_SIZE in
  let '(rect_id, canvas) :=
    Canvas.create
      (Canvas.rectangle x1 y1 (x1 + CELL_SIZE) (y1 + CELL_SIZE) "gray" "white")
      canvas in
  let idx := row * GRID_SIZE + col in
  let '(_, canvas) :=
    Canvas.create
      (Canvas.text
         (PrimFloat.add (py.float x1) (PrimFloat.div (py.float CELL_SIZE) (py.float 2)))
         (PrimFloat.add (py.float y1) (PrimFloat.div (py.float CELL_SIZE) (py.float 2)))
         (pretty idx) "gray70"
         (Some ("Helvetica",
                py.int (PrimFloat.mul (py.float CELL_SIZE) py.literal_0_3),
                "bold")))
      canvas in
  (canvas, <[(row, col) := rect_id]> rects).

Definition _build_widgets : Widgets :=
  let canvas_px := CELL_SIZE * GRID_SIZE in
  let canvas :=
    {| Canvas.width := canvas_px; Canvas.height := canvas_px;
       Canvas.bg := "white"; Canvas.items := [] |} in
  let '(canvas, rects) :=
    foldl (fun acc row =>
             foldl (fun acc col => draw_cell row col acc) acc (seqZ 0 GRID_SIZE))
          (canvas, ∅) (seqZ 0 GRID_SIZE) in
  {| canvas := canvas;
     rects := rects;
     bindings :=
       [("<Button-1>", _toggle_cell);
        ("<B1-Motion>", _paint_motion);
        ("<Button-3>", _erase_cell);
        ("<B3-Motion>", _erase_motion)];
     buttons :=
       [("Next", method (fun _ => _next));
        ("Guardar", method _save_all);
        ("PNG actual", method _save_png_current);
        ("Reiniciar", method (fun _ => _reset true));
        ("Salir", destroy)] |}.

(** The callback that Tk runs for an input: [None] when the input ends the
    session, a handler that does nothing when nothing is bound to it. *)
Definition dispatch (widgets : Widgets) (i : input) (w : world)
  : option (M GridDrawer unit) :=
  match i with
  | pointer sequence event =>
      match assoc sequence (bindings widgets) with
      | Some handler => Some (handler event)
      | None => Some (ret tt)
      end
  | button text =>
      match assoc text (buttons widgets) with
      | Some (method m) => Some (m w)
      | Some destroy => None
      | None => Some (ret tt)
      end
  | radiobutton _ => Some (ret tt)
  end.

(** [root.mainloop()]: the inputs are served one after the other until the
    window is destroyed.  An exception that leaves a callback is reported
    by Tk and the loop goes on; the result collects these exceptions next
    to the final widget state and the log of effects. *)
Fixpoint mainloop (inputs : list (input * world)) (self : GridDrawer)
  : GridDrawer * log GridDrawer * list exception :=
  match inputs with
  | [] => (self, [], [])
  | (i, w) :: rest =>
      match dispatch _build_widgets i w with
      | None => (self, [], [])
      | Some callback =>
          let '(r, self', l) := callback self in
          let '(self'', l', reported) := mainloop rest self' in
          (self'', l ++ l',
           match r with Ok _ => reported | Raise exc => exc :: reported end)
      end
  end.

(** [main]: a fresh widget, then the main loop. *)
Definition main (inputs : list (input * world))
  : GridDrawer * log GridDrawer * list exception :=
  mainloop inputs init.

End GridMakerWidgets.

Module SymbolsMakerWidgets.
Import SymbolsMaker.

Record Widgets :=
  { canvas : Canvas.t;
    rects : gmap (Z * Z) Z;
    radiobuttons : list (string * Z);
    bindings : list (string * (Tk.Event -> M GridDrawer unit));
    buttons : list (string * command GridDrawer) }.

(** The body of the double loop of [_draw_grid]. *)
Definition draw_cell (row col : Z) (acc : Canvas.t * gmap (Z * Z) Z)
  : Canvas.t * gmap (Z * Z) Z :=
  let '(canvas, rects) := acc in
  let x1 := col * CELL_SIZE in
  let y1 := row * CELL_SIZE in
  let x2 := x1 + CELL_SIZE in
  let y2 := y1 + CELL_SIZE in
  let '(rect, canvas) :=
    Canvas.create (Canvas.rectangle x1 y1 x2 y2 "gray" "") canvas in
  let '(_, canvas) :=
    Canvas.create
      (Canvas.text
         (PrimFloat.add (py.float x1) (PrimFloat.div (py.float CELL_SIZE) (py.float 2)))
         (PrimFloat.add (py.float y1) (PrimFloat.div (py.float CELL_SIZE) (py.float 2)))
         (pretty (row * GRID_SIZE + col)) "lightgray" None)
      canvas in
  (canvas, <[(row, col) := rect]> rects).

Definition _draw_grid (canvas : Canvas.t) : Canvas.t * gmap (Z * Z) Z :=
  foldl (fun acc row =>
           foldl (fun acc col => draw_cell row col acc) acc (seqZ 0 GRID_SIZE))
        (canvas, ∅) (seqZ 0 GRID_SIZE).

Definition _build_widgets : Widgets :=
  let canvas :=
    {| Canvas.width := CELL_SIZE * GRID_SIZE; Canvas.height := CELL_SIZE * GRID_SIZE;
       Canvas.bg := "white"; Canvas.items := [] |} in
  let '(canvas, rects) := _draw_grid canvas in
  {| canvas := canvas;
     rects := rects;
     radiobuttons := [("Circle", 0); ("Cross", 1)];
     bindings :=
       [("<Button-1>", _toggle_cell);
        ("<B1-Motion>", _paint_motion);
        ("<Button-3>", _erase_cell);
        ("<B3-Motion>", _erase_motion)];
     buttons :=
       [("Next", method (fun _ => _next));
        ("Save CSV", method _save_all);
        ("Save PNG", method _save_png_current);
        ("Reset", method (fun _ => _reset));
        ("Exit", destroy)] |}.

(** Selecting a radio button stores its value in [self.shape_var]. *)
Definition shape_var_set (value : Z) : M GridDrawer unit :=
  self <~ get ;;
  put {| state := state self; samples := samples self; shape_var := value |}.

Definition dispatch (widgets : Widgets) (i : input) (w : world)
  : option (M GridDrawer unit) :=
  match i with
  | pointer sequence event =>
      match assoc sequence (bindings widgets) with
      | Some handler => Some (handler event)
      | None => Some (ret tt)
      end
  | button text =>
      match assoc text (buttons widgets) with
      | Some (method m) => Some (m w)
      | Some destroy => None
      | None => Some (ret tt)
      end
  | radiobutton text =>
      match assoc text (radiobuttons widgets) with
      | Some value => Some (shape_var_set value)
      | None => Some (ret tt)
      end
  end.

Fixpoint mainloop (inputs : list (input * world)) (self : GridDrawer)
  : GridDrawer * log GridDrawer * list exception :=
  match inputs with
  | [] => (self, [], [])
  | (i, w) :: rest =>
      match dispatch _build_widgets i w with
      | None => (self, [], [])
      | Some callback =>
          let '(r, self', l) := callback self in
          let '(self'', l', reported) := mainloop rest self' in
          (self'', l ++ l',
           match r with Ok _ => reported | Raise exc => exc :: reported end)
      end
  end.

Definition main (inputs : list (input * world))
  : GridDrawer * log GridDrawer * list exception :=
  mainloop inputs init.

End SymbolsMakerWidgets.

(** Unfolds the plumbing of the handler monad. *)
Ltac run :=
  cbv beta iota zeta delta
    [bind get put ret raise perform lift try_except ask np_savetxt img_save];
  cbn [fst snd app].

(** ** Arrays: indexing, flattening, emptiness *)
Section Arrays.

Implicit Types (a : list (list Z)) (row vec : list Z) (n r c : nat).

Lemma index_in_range (len : nat) (i : Z) :
  0 <= i < Z.of_nat len -> np.index len i = Some (Z.to_nat i).
Proof. intros H. unfold np.index. by rewrite decide_True. Qed.

Lemma grid_ok_length n a : grid_ok n a -> length a = n.
Proof. by intros [? _]. Qed.

Lemma grid_ok_row n a r row :
  grid_ok n a -> a !! r = Some row -> length row = n /\ Forall is_bit row.
Proof.
  intros [_ Hrows] Hr.
  exact (proj1 (Forall_lookup _ _) Hrows r row Hr).
Qed.

Lemma grid_ok_cell n a r c :
  grid_ok n a -> (r < n)%nat -> (c < n)%nat ->
  exists row v, a !! r = Some row /\ row !! c = Some v /\ length row = n /\
                is_bit v /\ cell a r c = Some v.
Proof.
  intros Hok Hr Hc.
  destruct (lookup_lt_is_Some_2 a r) as [row Hrow].
  { by rewrite (grid_ok_length _ _ Hok). }
  destruct (grid_ok_row _ _ _ _ Hok Hrow) as [Hlen Hbits].
  destruct (lookup_lt_is_Some_2 row c) as [v Hv]; [lia|].
  exists row, v. repeat split; try done.
  - exact (proj1 (Forall_lookup _ _) Hbits c v Hv).
  - unfold cell. by rewrite Hrow.
Qed.

Lemma grid_ok_zeros n : grid_ok n (np.zeros n n).
Proof.
  unfold grid_ok, np.zeros. split; [apply length_replicate|].
  apply Forall_replicate. split; [apply length_replicate|].
  apply Forall_replicate. by left.
Qed.

Lemma cell_in_range n a r c v :
  grid_ok n a -> cell a r c = Some v -> (r < n)%nat /\ (c < n)%nat.
Proof.
  intros Hok Hc. unfold cell in Hc.
  destruct (a !! r) as [row|] eqn:Hrow; [|done]. simpl in Hc.
  destruct (grid_ok_row _ _ _ _ Hok Hrow) as [Hlen _].
  apply lookup_lt_Some in Hrow, Hc.
  rewrite (grid_ok_length _ _ Hok) in Hrow. lia.
Qed.

(** Reading and writing one element at an index within bounds. *)
Lemma getitem_in_range n a (r c : Z) :
  grid_ok n a -> 0 <= r < Z.of_nat n -> 0 <= c < Z.of_nat n ->
  np.getitem a r c = cell a (Z.to_nat r) (Z.to_nat c).
Proof.
  intros Hok Hr Hc.
  destruct (grid_ok_cell n a (Z.to_nat r) (Z.to_nat c) Hok)
    as (row & v & Hrow & Hv & Hlen & _ & Hcell); [lia..|].
  unfold np.getitem. rewrite (grid_ok_length _ _ Hok).
  rewrite index_in_range by done. simpl. rewrite Hrow. simpl.
  rewrite Hlen, index_in_range by done. simpl. by rewrite Hcell.
Qed.

Lemma setitem_in_range n a (r c v : Z) :
  grid_ok n a -> 0 <= r < Z.of_nat n -> 0 <= c < Z.of_nat n ->
  np.setitem a r c v = Some (set_cell a (Z.to_nat r) (Z.to_nat c) v).
Proof.
  intros Hok Hr Hc.
  destruct (grid_ok_cell n a (Z.to_nat r) (Z.to_nat c) Hok)
    as (row & v0 & Hrow & Hv & Hlen & _ & Hcell); [lia..|].
  unfold np.setitem, set_cell. rewrite (grid_ok_length _ _ Hok).
  rewrite index_in_range by done. simpl. rewrite Hrow. simpl.
  rewrite Hlen, index_in_range by done. simpl. f_equal.
  apply list_eq. intros k. destruct (decide (k = Z.to_nat r)) as [->|Hne].
  - rewrite list_lookup_insert_eq by (by eapply lookup_lt_Some).
    by rewrite list_lookup_alter_eq, Hrow.
  - by rewrite list_lookup_insert_ne, list_lookup_alter_ne.
Qed.

Lemma cell_set_cell_eq n a i j v :
  grid_ok n a -> (i < n)%nat -> (j < n)%nat ->
  cell (set_cell a i j v) i j = Some v.
Proof.
  intros Hok Hi Hj.
  destruct (grid_ok_cell n a i j Hok Hi Hj) as (row & v0 & Hrow & Hv & Hlen & _).
  unfold cell, set_cell. rewrite list_lookup_alter_eq, Hrow. simpl.
  apply list_lookup_insert_eq. lia.
Qed.

Lemma cell_set_cell_ne a i j v i' j' :
  (i', j') <> (i, j) -> cell (set_cell a i j v) i' j' = cell a i' j'.
Proof.
  intros Hne. unfold cell, set_cell.
  destruct (decide (i' = i)) as [->|Hi].
  - rewrite list_lookup_alter_eq. destruct (a !! i) as [row|]; [|done]. simpl.
    apply list_lookup_insert_ne. congruence.
  - by rewrite list_lookup_alter_ne.
Qed.

Lemma set_cell_id a i j v : cell a i j = Some v -> set_cell a i j v = a.
Proof.
  unfold cell, set_cell. intros Hc. apply list_eq. intros k.
  destruct (decide (k = i)) as [->|Hne].
  - rewrite list_lookup_alter_eq. destruct (a !! i) as [row|]; [|done].
    simpl in *. by rewrite list_insert_id.
  - by rewrite list_lookup_alter_ne.
Qed.

Lemma set_cell_twice a i j v v' :
  set_cell (set_cell a i j v) i j v' = set_cell a i j v'.
Proof.
  unfold set_cell. apply list_eq. intros k.
  destruct (decide (k = i)) as [->|Hne].
  - rewrite !list_lookup_alter_eq. destruct (a !! i) as [row|]; [|done].
    simpl. by rewrite list_insert_insert_eq.
  - by rewrite !list_lookup_alter_ne.
Qed.

Lemma grid_ok_set_cell n a i j v :
  grid_ok n a -> is_bit v -> grid_ok n (set_cell a i j v).
Proof.
  intros [Hlen Hrows] Hv. unfold set_cell. split; [by rewrite length_alter|].
  apply Forall_alter; [done|]. intros row Hrow.
  destruct (proj1 (Forall_lookup _ _) Hrows i row Hrow) as [Hl Hb].
  split; [by rewrite length_insert|]. by apply Forall_insert.
Qed.

(** Emptiness, flattening and reset. *)
Lemma any_flat_false vec : np.any_flat vec = false <-> Forall (eq 0) vec.
Proof.
  unfold np.any_flat. induction vec as [|v vec IH]; simpl.
  - split; [constructor|done].
  - rewrite orb_false_iff, IH, Forall_cons, negb_false_iff, Z.eqb_eq.
    split; intros [Hv ?]; (split; [congruence|done]).
Qed.

Lemma any_false a : np.any a = false <-> Forall (Forall (eq 0)) a.
Proof.
  unfold np.any. induction a as [|row a IH]; simpl.
  - split; [constructor|done].
  - rewrite orb_false_iff, IH, Forall_cons, any_flat_false. done.
Qed.

Lemma any_flat_flatten a : np.any_flat (np.flatten a) = np.any a.
Proof.
  unfold np.flatten, np.any. induction a as [|row a IH]; simpl; [done|].
  unfold np.any_flat at 1. rewrite existsb_app. fold (np.any_flat (concat a)).
  by rewrite IH.
Qed.

Lemma any_zeros n m : np.any (np.zeros n m) = false.
Proof.
  apply any_false. unfold np.zeros. apply Forall_replicate, Forall_replicate_eq.
Qed.

Lemma any_false_zeros n a :
  grid_ok n a -> np.any a = false <-> a = np.zeros n n.
Proof.
  intros [Hlen Hrows]. split.
  - intros Hz%any_false. unfold np.zeros. symmetry.
    apply replicate_as_Forall. split; [done|].
    apply Forall_forall. intros row Hin.
    apply replicate_as_Forall. split.
    + by destruct (proj1 (Forall_forall _ _) Hrows row Hin).
    + exact (proj1 (Forall_forall _ _) Hz row Hin).
  - intros ->. apply any_zeros.
Qed.

Lemma fill_zeros n a : grid_ok n a -> np.fill a 0 = np.zeros n n.
Proof.
  intros [Hlen Hrows]. unfold np.fill, np.zeros. symmetry.
  apply replicate_as_Forall. split; [by rewrite length_fmap|].
  apply Forall_fmap, Forall_forall. intros row Hin. simpl.
  apply replicate_as_Forall. rewrite length_fmap. split.
  - by destruct (proj1 (Forall_forall _ _) Hrows row Hin).
  - apply Forall_fmap, Forall_forall. by intros.
Qed.

Lemma length_flatten n a : grid_ok n a -> length (np.flatten a) = (n * n)%nat.
Proof.
  intros [Hlen Hrows]. unfold np.flatten. rewrite <- Hlen at 1. clear Hlen.
  induction Hrows as [|row a [Hrow _] _ IH]; simpl; [done|].
  rewrite length_app, Hrow, IH. done.
Qed.

(** Row-major order: rows of length [n] laid end to end. *)
Lemma flatten_lookup n a r c :
  Forall (fun row => length row = n) a -> (c < n)%nat ->
  np.flatten a !! (r * n + c)%nat = cell a r c.
Proof.
  unfold np.flatten, cell. intros Hrows Hc. revert r.
  induction Hrows as [|row a Hrow _ IH]; intros r; simpl.
  - done.
  - destruct r as [|r]; simpl.
    + apply lookup_app_l. lia.
    + rewrite lookup_app_r by lia.
      replace (n + r * n + c - length row)%nat with (r * n + c)%nat by lia.
      apply IH.
Qed.

Lemma grid_ok_rows n a : grid_ok n a -> Forall (fun row => length row = n) a.
Proof. intros [_ Hrows]. eapply Forall_impl; [done|]. by intros row [? _]. Qed.

Lemma sample_ok_flatten n a : grid_ok n a -> sample_ok (n * n) (np.flatten a).
Proof.
  intros Hok. split; [by apply length_flatten|].
  destruct Hok as [_ Hrows]. unfold np.flatten.
  induction Hrows as [|row a [_ Hb] _ IH]; simpl; [done|].
  by apply Forall_app.
Qed.

Lemma forced_set_cell n a (r c : Z) v :
  grid_ok n a -> 0 <= r < Z.of_nat n -> 0 <= c < Z.of_nat n ->
  forced (Some (r, c)) v a (set_cell a (Z.to_nat r) (Z.to_nat c) v).
Proof.
  intros Hok Hr Hc. split.
  - apply (cell_set_cell_eq n); (done || lia).
  - intros r' c' Hne. by apply cell_set_cell_ne.
Qed.

Lemma set_cell_one_never_decreases n a i j :
  grid_ok n a -> never_decreases a (set_cell a i j 1).
Proof.
  intros Hok r c v Hv.
  destruct (cell_in_range _ _ _ _ _ Hok Hv) as [Hr Hc].
  destruct (decide ((r, c) = (i, j))) as [[= -> ->]|Hne].
  - exists 1. split; [by apply (cell_set_cell_eq n)|].
    destruct (grid_ok_cell n a i j Hok Hr Hc) as (_ & v' & _ & _ & _ & Hb & Hv').
    rewrite Hv in Hv'. injection Hv' as ->. destruct Hb; lia.
  - exists v. by rewrite cell_set_cell_ne.
Qed.

Lemma set_cell_zero_never_increases n a i j :
  grid_ok n a -> never_increases a (set_cell a i j 0).
Proof.
  intros Hok r c v Hv.
  destruct (cell_in_range _ _ _ _ _ Hok Hv) as [Hr Hc].
  destruct (decide ((r, c) = (i, j))) as [[= -> ->]|Hne].
  - exists 0. split; [by apply (cell_set_cell_eq n)|].
    destruct (grid_ok_cell n a i j Hok Hr Hc) as (_ & v' & _ & _ & _ & Hb & Hv').
    rewrite Hv in Hv'. injection Hv' as ->. destruct Hb; lia.
  - exists v. by rewrite cell_set_cell_ne.
Qed.

End Arrays.

(** ** grid_maker.py: the pointer handlers *)
Section GridMakerPointer.
Import GridMaker.

Implicit Types (self : GridDrawer) (event : Tk.Event).

Lemma gm_coords_some event r c :
  _coords_to_cell event = Some (r, c) ->
  r = Tk.y event / CELL_SIZE /\ c = Tk.x event / CELL_SIZE /\
  0 <= r < 8 /\ 0 <= c < 8.
Proof.
  unfold _coords_to_cell, GRID_SIZE. intros H.
  destruct (_ && _) eqn:Hb in H; [|done]. injection H as <- <-.
  apply andb_true_iff in Hb as [[??]%andb_true_iff [??]%andb_true_iff].
  repeat split; lia.
Qed.

Lemma gm_coords_none event :
  _coords_to_cell event = None <->
  ~ (0 <= Tk.y event / CELL_SIZE < GRID_SIZE /\
     0 <= Tk.x event / CELL_SIZE < GRID_SIZE).
Proof.
  unfold _coords_to_cell. destruct (_ && _) eqn:Hb.
  - apply andb_true_iff in Hb as [[??]%andb_true_iff [??]%andb_true_iff].
    split; [done|]. intros []. lia.
  - split; [|done]. intros _ [[??] [??]].
    apply not_true_iff_false in Hb. apply Hb.
    rewrite !andb_true_iff. repeat split; lia.
Qed.

Lemma gm_getitem self (r c : Z) :
  grid_ok 8 (state self) -> 0 <= r < 8 -> 0 <= c < 8 ->
  exists v, cell (state self) (Z.to_nat r) (Z.to_nat c) = Some v /\ is_bit v /\
            state_getitem r c self = (Ok v, self, []).
Proof.
  intros Hok Hr Hc.
  destruct (grid_ok_cell 8 (state self) (Z.to_nat r) (Z.to_nat c) Hok)
    as (row & v & _ & _ & _ & Hbit & Hcell); [lia..|].
  exists v. repeat split; [done..|].
  unfold state_getitem. run.
  rewrite (getitem_in_range 8) by (done || lia). by rewrite Hcell.
Qed.

Lemma gm_setitem self (r c v : Z) :
  grid_ok 8 (state self) -> 0 <= r < 8 -> 0 <= c < 8 ->
  state_setitem r c v self =
    (Ok tt,
     {| state := set_cell (state self) (Z.to_nat r) (Z.to_nat c) v;
        samples := samples self |}, []).
Proof.
  intros Hok Hr Hc. unfold state_setitem. run.
  by rewrite (setitem_in_range 8) by (done || lia).
Qed.

(** What each handler does on an event inside the grid. *)
Lemma gm_toggle_at event r c self :
  grid_ok 8 (state self) -> _coords_to_cell event = Some (r, c) ->
  exists v, cell (state self) (Z.to_nat r) (Z.to_nat c) = Some v /\ is_bit v /\
    _toggle_cell event self =
      (Ok tt,
       {| state := set_cell (state self) (Z.to_nat r) (Z.to_nat c) (1 - v);
          samples := samples self |}, []).
Proof.
  intros Hok Hcell. destruct (gm_coords_some _ _ _ Hcell) as (_ & _ & Hr & Hc).
  destruct (gm_getitem self r c Hok Hr Hc) as (v & Hv & Hbit & Hget).
  exists v. repeat split; [done..|].
  unfold _toggle_cell. rewrite Hcell. unfold bind at 1. rewrite Hget.
  rewrite gm_setitem by done. simpl.
  by destruct Hbit as [-> | ->].
Qed.

Lemma gm_paint_at event r c self :
  grid_ok 8 (state self) -> _coords_to_cell event = Some (r, c) ->
  _paint_motion event self =
    (Ok tt,
     {| state := set_cell (state self) (Z.to_nat r) (Z.to_nat c) 1;
        samples := samples self |}, []).
Proof.
  intros Hok Hcell. destruct (gm_coords_some _ _ _ Hcell) as (_ & _ & Hr & Hc).
  destruct (gm_getitem self r c Hok Hr Hc) as (v & Hv & Hbit & Hget).
  unfold _paint_motion. rewrite Hcell. unfold bind at 1. rewrite Hget.
  destruct Hbit as [-> | ->]; simpl.
  - by rewrite gm_setitem.
  - rewrite set_cell_id by done. by destruct self.
Qed.

Lemma gm_erase_at event r c self :
  grid_ok 8 (state self) -> _coords_to_cell event = Some (r, c) ->
  _erase_cell event self =
    (Ok tt,
     {| state := set_cell (state self) (Z.to_nat r) (Z.to_nat c) 0;
        samples := samples self |}, []).
Proof.
  intros Hok Hcell. destruct (gm_coords_some _ _ _ Hcell) as (_ & _ & Hr & Hc).
  destruct (gm_getitem self r c Hok Hr Hc) as (v & Hv & Hbit & Hget).
  unfold _erase_cell. rewrite Hcell. unfold bind at 1. rewrite Hget.
  destruct Hbit as [-> | ->]; simpl.
  - rewrite set_cell_id by done. by destruct self.
  - by rewrite gm_setitem.
Qed.

End GridMakerPointer.

(** ** symbols_maker.py: the pointer handlers *)
Section SymbolsMakerPointer.
Import SymbolsMaker.

Implicit Types (self : GridDrawer) (event : Tk.Event).

Lemma sm_coords_some event r c :
  _coords_to_cell event = Some (r, c) ->
  r = Tk.y event / CELL_SIZE /\ c = Tk.x event / CELL_SIZE /\
  0 <= r < 5 /\ 0 <= c < 5.
Proof.
  unfold _coords_to_cell, GRID_SIZE. intros H.
  destruct (_ && _) eqn:Hb in H; [|done]. injection H as <- <-.
  apply andb_true_iff in Hb as [[??]%andb_true_iff [??]%andb_true_iff].
  repeat split; lia.
Qed.

Lemma sm_coords_none event :
  _coords_to_cell event = None <->
  ~ (0 <= Tk.y event / CELL_SIZE < GRID_SIZE /\
     0 <= Tk.x event / CELL_SIZE < GRID_SIZE).
Proof.
  unfold _coords_to_cell. destruct (_ && _) eqn:Hb.
  - apply andb_true_iff in Hb as [[??]%andb_true_iff [??]%andb_true_iff].
    split; [done|]. intros []. lia.
  - split; [|done]. intros _ [[??] [??]].
    apply not_true_iff_false in Hb. apply Hb.
    rewrite !andb_true_iff. repeat split; lia.
Qed.

Lemma sm_getitem self (r c : Z) :
  grid_ok 5 (state self) -> 0 <= r < 5 -> 0 <= c < 5 ->
  exists v, cell (state self) (Z.to_nat r) (Z.to_nat c) = Some v /\ is_bit v /\
            state_getitem r c self = (Ok v, self, []).
Proof.
  intros Hok Hr Hc.
  destruct (grid_ok_cell 5 (state self) (Z.to_nat r) (Z.to_nat c) Hok)
    as (row & v & _ & _ & _ & Hbit & Hcell); [lia..|].
  exists v. repeat split; [done..|].
  unfold state_getitem. run.
  rewrite (getitem_in_range 5) by (done || lia). by rewrite Hcell.
Qed.

Lemma sm_setitem self (r c v : Z) :
  grid_ok 5 (state self) -> 0 <= r < 5 -> 0 <= c < 5 ->
  state_setitem r c v self =
    (Ok tt,
     {| state := set_cell (state self) (Z.to_nat r) (Z.to_nat c) v;
        samples := samples self;
        shape_var := shape_var self |}, []).
Proof.
  intros Hok Hr Hc. unfold state_setitem. run.
  by rewrite (setitem_in_range 5) by (done || lia).
Qed.

Lemma sm_toggle_at event r c self :
  grid_ok 5 (state self) -> _coords_to_cell event = Some (r, c) ->
  exists v, cell (state self) (Z.to_nat r) (Z.to_nat c) = Some v /\ is_bit v /\
    _toggle_cell event self =
      (Ok tt,
       {| state := set_cell (state self) (Z.to_nat r) (Z.to_nat c) (1 - v);
          samples := samples self;
          shape_var := shape_var self |}, []).
Proof.
  intros Hok Hcell. destruct (sm_coords_some _ _ _ Hcell) as (_ & _ & Hr & Hc).
  destruct (sm_getitem self r c Hok Hr Hc) as (v & Hv & Hbit & Hget).
  exists v. repeat split; [done..|].
  unfold _toggle_cell. rewrite Hcell. unfold bind at 1. rewrite Hget.
  rewrite sm_setitem by done. simpl.
  by destruct Hbit as [-> | ->].
Qed.

Lemma sm_paint_at event r c self :
  grid_ok 5 (state self) -> _coords_to_cell event = Some (r, c) ->
  _paint_motion event self =
    (Ok tt,
     {| state := set_cell (state self) (Z.to_nat r) (Z.to_nat c) 1;
        samples := samples self;
        shape_var := shape_var self |}, []).
Proof.
  intros Hok Hcell. destruct (sm_coords_some _ _ _ Hcell) as (_ & _ & Hr & Hc).
  unfold _paint_motion. rewrite Hcell. by apply sm_setitem.
Qed.

Lemma sm_erase_at event r c self :
  grid_ok 5 (state self) -> _coords_to_cell event = Some (r, c) ->
  _erase_cell event self =
    (Ok tt,
     {| state := set_cell (state self) (Z.to_nat r) (Z.to_nat c) 0;
        samples := samples self;
        shape_var := shape_var self |}, []).
Proof.
  intros Hok Hcell. destruct (sm_coords_some _ _ _ Hcell) as (_ & _ & Hr & Hc).
  unfold _erase_cell. rewrite Hcell. by apply sm_setitem.
Qed.

Lemma sm_erase_motion_eq event self : _erase_motion event self = _erase_cell event self.
Proof. reflexivity. Qed.

End SymbolsMakerPointer.

(** ** Commit ("Next") in both programs *)
Section Commit.

Lemma gm_next_empty (self : GridMaker.GridDrawer) :
  np.any (GridMaker.state self) = false ->
  GridMaker._next self =
    (Ok tt, self,
     [(showwarning "Vacío" "El dibujo está vacío. Dibuja algo antes de pulsar Next.",
       self)]).
Proof.
  intros Hany. unfold GridMaker._next. run.
  by rewrite any_flat_flatten, Hany.
Qed.

Lemma gm_next_drawn (self : GridMaker.GridDrawer) :
  np.any (GridMaker.state self) = true ->
  let self' :=
    {| GridMaker.state := np.fill (GridMaker.state self) 0;
       GridMaker.samples :=
         GridMaker.samples self ++ [np.flatten (GridMaker.state self)] |} in
  GridMaker._next self =
    (Ok tt, self',
     [(showinfo "Next"
         ("Dibujo #" +:+ pretty (length (GridMaker.samples self'))
            +:+ " almacenado. Puedes crear otro."), self')]).
Proof.
  intros Hany. unfold GridMaker._next. run.
  rewrite any_flat_flatten, Hany.
  unfold GridMaker.samples_append, GridMaker._reset. run. done.
Qed.

Lemma sm_next_empty (self : SymbolsMaker.GridDrawer) :
  np.any (SymbolsMaker.state self) = false ->
  SymbolsMaker._next self =
    (Ok tt, self, [(showwarning "Warning" "The sample is empty.", self)]).
Proof.
  intros Hany. unfold SymbolsMaker._next. run. by rewrite Hany.
Qed.

Lemma sm_next_drawn (self : SymbolsMaker.GridDrawer) :
  np.any (SymbolsMaker.state self) = true ->
  let stored :=
    {| SymbolsMaker.state := SymbolsMaker.state self;
       SymbolsMaker.samples :=
         SymbolsMaker.samples self
           ++ [np.flatten (SymbolsMaker.state self) ++ [SymbolsMaker.shape_var self]];
       SymbolsMaker.shape_var := SymbolsMaker.shape_var self |} in
  SymbolsMaker._next self =
    (Ok tt,
     {| SymbolsMaker.state := np.fill (SymbolsMaker.state self) 0;
        SymbolsMaker.samples := SymbolsMaker.samples stored;
        SymbolsMaker.shape_var := 0 |},
     [(showinfo "Info"
         ("Sample saved. Total samples: "
            +:+ pretty (length (SymbolsMaker.samples stored))), stored)]).
Proof.
  intros Hany. unfold SymbolsMaker._next. run. rewrite Hany.
  unfold SymbolsMaker.samples_append, SymbolsMaker._reset. run. done.
Qed.

End Commit.

(** ** Export to a table in both programs *)
Section ExportTable.

Lemma same_length_ok len (rows : list (list Z)) :
  Forall (sample_ok len) rows -> np.same_length rows = true.
Proof.
  intros Hrows. destruct Hrows as [|r rs [Hr _] Hrs]; simpl; [done|].
  apply forallb_forall. intros r' Hin%list_elem_of_In.
  destruct (proj1 (Forall_forall _ _) Hrs r' Hin) as [Hr' _].
  apply Nat.eqb_eq. congruence.
Qed.

Lemma vstack_ok len (rows : list (list Z)) :
  Forall (sample_ok len) rows -> rows <> [] -> np.vstack rows = Ok rows.
Proof.
  intros Hrows Hne. unfold np.vstack. destruct rows as [|r rs]; [done|].
  by rewrite (same_length_ok len).
Qed.

Lemma array_ok len (rows : list (list Z)) :
  Forall (sample_ok len) rows -> np.array rows = Ok rows.
Proof.
  intros Hrows. unfold np.array. rewrite (same_length_ok len) by done. simpl.
  replace (forallb (forallb np.fits_int64) rows) with true; [done|].
  symmetry. apply forallb_forall. intros r Hin%list_elem_of_In.
  destruct (proj1 (Forall_forall _ _) Hrows r Hin) as [_ Hbits].
  apply forallb_forall. intros v Hv%list_elem_of_In.
  destruct (proj1 (Forall_forall _ _) Hbits v Hv) as [-> | ->]; done.
Qed.

(** [_save_all] of grid_maker.py, case by case. *)
Lemma gm_save_all_cases (w : world) (self : GridMaker.GridDrawer) :
  let merged :=
    {| GridMaker.state := GridMaker.state self;
       GridMaker.samples :=
         GridMaker.samples self
           ++ (if np.any (GridMaker.state self)
               then [np.flatten (GridMaker.state self)] else []) |} in
  let asked := (asksaveasfilename (filename w), merged) in
  let failed exc :=
    (showerror "Error" ("No se pudo guardar: " +:+ str exc), merged) in
  GridMaker._save_all w self =
    if bool_decide (GridMaker.samples self = []) && negb (np.any (GridMaker.state self))
    then (Ok tt, self,
          [(showwarning "Nada que guardar" "No hay dibujos almacenados.", self)])
    else if bool_decide (filename w = "") then (Ok tt, merged, [asked])
    else match np.vstack (GridMaker.samples merged) with
         | Raise exc => (Ok tt, merged, [asked; failed exc])
         | Ok mat =>
             let written := (savetxt (filename w) (csv_line <$> mat) (disk w), merged) in
             match disk w with
             | Some exc => (Ok tt, merged, [asked; written; failed exc])
             | None =>
                 (Ok tt,
                  {| GridMaker.state := GridMaker.state self; GridMaker.samples := [] |},
                  [asked; written;
                   (showinfo "Guardado"
                      (pretty (length (GridMaker.samples merged))
                         +:+ " dibujos guardados en " +:+ filename w), merged)])
             end
         end.
Proof.
  intros merged asked failed. subst merged asked failed.
  unfold GridMaker._save_all. run.
  destruct (bool_decide (GridMaker.samples self = []) &&
            negb (np.any (GridMaker.state self))); [done|].
  unfold GridMaker.samples_append, GridMaker.samples_clear.
  destruct (np.any (GridMaker.state self)); run;
    (destruct (bool_decide (filename w = "")); [try done; by rewrite app_nil_r;
        destruct self|]).
  - destruct (np.vstack _); [|done]. by destruct (disk w).
  - rewrite app_nil_r. destruct (np.vstack _); simpl.
    + destruct (disk w); by destruct self.
    + by destruct self.
Qed.

(** [_save_all] of symbols_maker.py, case by case. *)
Lemma sm_save_all_cases (w : world) (self : SymbolsMaker.GridDrawer) :
  let merged :=
    {| SymbolsMaker.state := SymbolsMaker.state self;
       SymbolsMaker.samples :=
         SymbolsMaker.samples self
           ++ (if np.any (SymbolsMaker.state self)
               then [np.flatten (SymbolsMaker.state self)
                       ++ [SymbolsMaker.shape_var self]]
               else []);
       SymbolsMaker.shape_var := SymbolsMaker.shape_var self |} in
  let asked := (asksaveasfilename (filename w), merged) in
  SymbolsMaker._save_all w self =
    if bool_decide (SymbolsMaker.samples merged = [])
    then (Ok tt, merged, [(showwarning "Warning" "No samples to save.", merged)])
    else if bool_decide (filename w = "") then (Ok tt, merged, [asked])
    else match np.array (SymbolsMaker.samples merged) with
         | Raise exc => (Raise exc, merged, [asked])
         | Ok mat =>
             let written := (savetxt (filename w) (csv_line <$> mat) (disk w), merged) in
             match disk w with
             | Some exc => (Raise exc, merged, [asked; written])
             | None =>
                 (Ok tt, merged,
                  [asked; written;
                   (showinfo "Info" ("Data saved to " +:+ filename w), merged)])
             end
         end.
Proof.
  intros merged asked. subst merged asked.
  unfold SymbolsMaker._save_all, SymbolsMaker.samples_append. run.
  destruct (np.any (SymbolsMaker.state self)); run; simpl.
  - destruct (bool_decide (_ = [])); [done|].
    destruct (bool_decide (filename w = "")); simpl; [done|].
    destruct (np.array _); [|done]. by destruct (disk w).
  - rewrite app_nil_r.
    replace {| SymbolsMaker.state := SymbolsMaker.state self;
               SymbolsMaker.samples := SymbolsMaker.samples self;
               SymbolsMaker.shape_var := SymbolsMaker.shape_var self |}
      with self by (by destruct self).
    destruct (bool_decide (SymbolsMaker.samples self = [])); [done|].
    destruct (bool_decide (filename w = "")); simpl; [done|].
    destruct (np.array _); [|done]. by destruct (disk w).
Qed.

End ExportTable.

(** ** Export to an image in both programs *)
Section ExportImage.

Lemma cell_fmap (f : Z -> Z) (a : list (list Z)) (r c : nat) :
  cell ((fun row : list Z => f <$> row) <$> a) r c = f <$> cell a r c.
Proof.
  unfold cell. rewrite list_lookup_fmap.
  destruct (a !! r) as [row|]; simpl; [|done]. apply list_lookup_fmap.
Qed.

(** Nearest-neighbour resizing reads, for each output pixel, the input
    pixel under its centre. *)
Lemma resize_lookup (im : list (list Z)) (w h : Z) (y x : nat) :
  Z.of_nat y < h -> Z.of_nat x < w ->
  cell (Image.resize im (w, h)) y x =
    Some (Image.getpixel im
            (Z.to_nat (((2 * Z.of_nat x + 1)
                          * Z.of_nat (length (default [] (im !! 0%nat)))) / (2 * w)))
            (Z.to_nat (((2 * Z.of_nat y + 1) * Z.of_nat (length im)) / (2 * h)))).
Proof.
  intros Hy Hx. unfold cell, Image.resize.
  rewrite list_lookup_fmap, lookup_seqZ_lt by done. simpl.
  rewrite list_lookup_fmap, lookup_seqZ_lt by done. simpl.
  by rewrite !Z.add_0_l.
Qed.

Lemma length_resize (im : list (list Z)) (w h : Z) :
  length (Image.resize im (w, h)) = Z.to_nat h /\
  Forall (fun row => length row = Z.to_nat w) (Image.resize im (w, h)).
Proof.
  unfold Image.resize. split.
  - by rewrite length_fmap, length_seqZ.
  - apply Forall_fmap, Forall_forall. intros y _. simpl.
    by rewrite length_fmap, length_seqZ.
Qed.

(** Scaling by a whole factor: the pixel under the centre of output pixel
    [i] is input pixel [i / factor]. *)
Lemma centre_of_block (i n factor : Z) :
  0 <= i -> 0 < n -> 0 < factor ->
  ((2 * i + 1) * n) / (2 * (n * factor)) = i / factor.
Proof.
  intros Hi Hn Hf.
  replace ((2 * i + 1) * n) with ((2 * i + 1) * n + 0) by lia.
  replace (2 * (n * factor)) with (n * (2 * factor)) by lia.
  rewrite (Z.mul_comm (2 * i + 1) n).
  rewrite Z.add_0_r, Z.div_mul_cancel_l by lia.
  symmetry. apply Z.div_unique with (r := 2 * (i mod factor) + 1).
  - left. pose proof (Z.mod_pos_bound i factor Hf). lia.
  - pose proof (Z.div_mod i factor). lia.
Qed.

(** [_save_png_current] of grid_maker.py, case by case. *)
Lemma gm_save_png_cases (w : world) (self : GridMaker.GridDrawer) :
  let img :=
    Image.fromarray
      ((fun row : list Z => (fun v => np.uint8 (255 * np.uint8 (np.uint8 (1 - v)))) <$> row)
         <$> GridMaker.state self) in
  let asked := (asksaveasfilename (filename w), self) in
  let saved := (save (filename w) img (disk w), self) in
  GridMaker._save_png_current w self =
    if bool_decide (filename w = "") then (Ok tt, self, [asked])
    else match disk w with
         | None =>
             (Ok tt, self,
              [asked; saved;
               (showinfo "Guardado" ("PNG guardado en " +:+ filename w), self)])
         | Some exc =>
             (Ok tt, self,
              [asked; saved;
               (showerror "Error" ("No se pudo guardar: " +:+ str exc), self)])
         end.
Proof.
  intros img asked saved. subst img asked saved.
  unfold GridMaker._save_png_current. run.
  destruct (bool_decide (filename w = "")); [done|].
  by destruct (disk w).
Qed.

(** [_save_png_current] of symbols_maker.py, case by case. *)
Lemma sm_save_png_cases (w : world) (self : SymbolsMaker.GridDrawer) :
  let img :=
    Image.resize
      (Image.fromarray
         ((fun row : list Z => (fun v => np.uint8 (np.int64 (v * 255))) <$> row)
            <$> SymbolsMaker.state self))
      (SymbolsMaker.GRID_SIZE * SymbolsMaker.CELL_SIZE,
       SymbolsMaker.GRID_SIZE * SymbolsMaker.CELL_SIZE) in
  let asked := (asksaveasfilename (filename w), self) in
  let saved := (save (filename w) img (disk w), self) in
  SymbolsMaker._save_png_current w self =
    if negb (np.any (SymbolsMaker.state self))
    then (Ok tt, self, [(showwarning "Warning" "The sample is empty.", self)])
    else if bool_decide (filename w = "") then (Ok tt, self, [asked])
    else match disk w with
         | None =>
             (Ok tt, self,
              [asked; saved;
               (showinfo "Info" ("Image saved to " +:+ filename w), self)])
         | Some exc => (Raise exc, self, [asked; saved])
         end.
Proof.
  intros img asked saved. subst asked saved.
  unfold SymbolsMaker._save_png_current. run. fold img.
  clearbody img.
  destruct (np.any (SymbolsMaker.state self)); cbn [negb]; [|reflexivity].
  destruct (bool_decide (filename w = "")); cbn [negb]; [reflexivity|].
  destruct (disk w); reflexivity.
Qed.

End ExportImage.

(** ** The well-formed states are closed under every handler

    Both widgets start well formed and every handler keeps them so, whatever
    the event and whatever the world answers: the hypotheses [grid_ok] and
    [sample_ok] of the properties below hold in every state a session can
    reach. *)
Section Invariant.

Lemma gm_ok_init : gm_ok GridMaker.init.
Proof. split; [apply (grid_ok_zeros 8)|constructor]. Qed.

Lemma sm_ok_init : sm_ok SymbolsMaker.init.
Proof. split; [apply (grid_ok_zeros 5)|]. split; [constructor|by left]. Qed.

Lemma gm_ok_pointer (event : Tk.Event) (self : GridMaker.GridDrawer) :
  gm_ok self ->
  Forall (fun handler => gm_ok (final (handler event self)))
    [GridMaker._toggle_cell; GridMaker._paint_motion;
     GridMaker._erase_cell; GridMaker._erase_motion].
Proof.
  intros [Hg Hs].
  assert (is_bit 0 /\ is_bit 1) as [H0 H1] by (split; [by left|by right]).
  destruct (GridMaker._coords_to_cell event) as [[r c]|] eqn:E.
  - destruct (gm_toggle_at _ _ _ _ Hg E) as (v & _ & Hbit & Ht).
    repeat apply Forall_cons_2; try apply Forall_nil_2.
    + rewrite Ht. split; [|done]. apply grid_ok_set_cell; [done|].
      destruct Hbit as [-> | ->]; done.
    + rewrite (gm_paint_at _ r c) by done. split; [|done]. by apply grid_ok_set_cell.
    + rewrite (gm_erase_at _ r c) by done. split; [|done]. by apply grid_ok_set_cell.
    + unfold GridMaker._erase_motion. rewrite (gm_erase_at _ r c) by done.
      split; [|done]. by apply grid_ok_set_cell.
  - repeat apply Forall_cons_2; try apply Forall_nil_2;
      unfold GridMaker._erase_motion, GridMaker._toggle_cell,
        GridMaker._paint_motion, GridMaker._erase_cell; by rewrite E.
Qed.

Lemma sm_ok_pointer (event : Tk.Event) (self : SymbolsMaker.GridDrawer) :
  sm_ok self ->
  Forall (fun handler => sm_ok (final (handler event self)))
    [SymbolsMaker._toggle_cell; SymbolsMaker._paint_motion;
     SymbolsMaker._erase_cell; SymbolsMaker._erase_motion].
Proof.
  intros (Hg & Hs & Hl).
  assert (is_bit 0 /\ is_bit 1) as [H0 H1] by (split; [by left|by right]).
  destruct (SymbolsMaker._coords_to_cell event) as [[r c]|] eqn:E.
  - destruct (sm_toggle_at _ _ _ _ Hg E) as (v & _ & Hbit & Ht).
    repeat apply Forall_cons_2; try apply Forall_nil_2.
    + rewrite Ht. split; [|done]. apply grid_ok_set_cell; [done|].
      destruct Hbit as [-> | ->]; done.
    + rewrite (sm_paint_at _ r c) by done. split; [|done]. by apply grid_ok_set_cell.
    + rewrite (sm_erase_at _ r c) by done. split; [|done]. by apply grid_ok_set_cell.
    + rewrite sm_erase_motion_eq, (sm_erase_at _ r c) by done.
      split; [|done]. by apply grid_ok_set_cell.
  - repeat apply Forall_cons_2; try apply Forall_nil_2;
      unfold SymbolsMaker._erase_motion, SymbolsMaker._toggle_cell,
        SymbolsMaker._paint_motion, SymbolsMaker._erase_cell; by rewrite E.
Qed.

Lemma gm_ok_commands (w : world) (update_msg : bool) (self : GridMaker.GridDrawer) :
  gm_ok self ->
  Forall (fun command => gm_ok (final (command self)))
    [GridMaker._next; GridMaker._save_all w; GridMaker._save_png_current w;
     GridMaker._reset update_msg].
Proof.
  intros [Hg Hs].
  assert (Forall (sample_ok 64)
            (GridMaker.samples self ++ [np.flatten (GridMaker.state self)])) as Hs'.
  { apply Forall_app. split; [done|]. apply Forall_singleton.
    exact (sample_ok_flatten 8 _ Hg). }
  repeat apply Forall_cons_2; try apply Forall_nil_2.
  - destruct (np.any (GridMaker.state self)) eqn:Hany.
    + rewrite (gm_next_drawn _ Hany). split; [|done]. cbn.
      rewrite (fill_zeros 8) by done. apply grid_ok_zeros.
    + by rewrite (gm_next_empty _ Hany).
  - rewrite gm_save_all_cases. cbn zeta.
    destruct (bool_decide (GridMaker.samples self = []) && _); [done|].
    assert (gm_ok {| GridMaker.state := GridMaker.state self;
                     GridMaker.samples :=
                       GridMaker.samples self
                         ++ (if np.any (GridMaker.state self)
                             then [np.flatten (GridMaker.state self)] else []) |})
      as Hmerged.
    { split; [done|]. cbn. destruct (np.any _); [done|by rewrite app_nil_r]. }
    destruct (bool_decide (filename w = "")); [done|].
    destruct (np.vstack _); [|done].
    destruct (disk w); [done|]. split; [done|constructor].
  - rewrite gm_save_png_cases. cbn zeta.
    destruct (bool_decide (filename w = "")); [done|]. by destruct (disk w).
  - unfold GridMaker._reset. run. split; [|by destruct update_msg].
    assert (GridMaker.state
              (final ((if update_msg
                       then fun self0 : GridMaker.GridDrawer =>
                              (Ok tt, self0,
                               [(showinfo "Reiniciar" "Lienzo limpio.", self0)])
                       else fun self0 => (Ok tt, self0, []))
                        {| GridMaker.state := np.fill (GridMaker.state self) 0;
                           GridMaker.samples := GridMaker.samples self |}))
            = np.zeros 8 8) as E.
    { destruct update_msg; cbn; by apply fill_zeros. }
    destruct update_msg; cbn in *; rewrite E; apply grid_ok_zeros.
Qed.

Lemma sm_ok_commands (w : world) (self : SymbolsMaker.GridDrawer) :
  sm_ok self ->
  Forall (fun command => sm_ok (final (command self)))
    [SymbolsMaker._next; SymbolsMaker._save_all w;
     SymbolsMaker._save_png_current w; SymbolsMaker._reset].
Proof.
  intros (Hg & Hs & Hl).
  assert (Forall (sample_ok 26)
            (SymbolsMaker.samples self
               ++ [np.flatten (SymbolsMaker.state self)
                     ++ [SymbolsMaker.shape_var self]])) as Hs'.
  { apply Forall_app. split; [done|]. apply Forall_singleton.
    destruct (sample_ok_flatten 5 _ Hg) as [Hlen Hbits]. split.
    - rewrite length_app, Hlen. done.
    - apply Forall_app. split; [done|by apply Forall_singleton]. }
  repeat apply Forall_cons_2; try apply Forall_nil_2.
  - destruct (np.any (SymbolsMaker.state self)) eqn:Hany.
    + rewrite (sm_next_drawn _ Hany). cbn.
      split; [rewrite (fill_zeros 5) by done; apply grid_ok_zeros|].
      split; [done|by left].
    + by rewrite (sm_next_empty _ Hany).
  - rewrite sm_save_all_cases. cbn zeta.
    assert (sm_ok {| SymbolsMaker.state := SymbolsMaker.state self;
                     SymbolsMaker.samples :=
                       SymbolsMaker.samples self
                         ++ (if np.any (SymbolsMaker.state self)
                             then [np.flatten (SymbolsMaker.state self)
                                     ++ [SymbolsMaker.shape_var self]]
                             else []);
                     SymbolsMaker.shape_var := SymbolsMaker.shape_var self |})
      as Hmerged.
    { split; [done|]. split; [|done]. cbn.
      destruct (np.any _); [done|by rewrite app_nil_r]. }
    destruct (bool_decide (_ = [])); [done|].
    destruct (bool_decide (filename w = "")); [done|].
    destruct (np.array _); [|done]. by destruct (disk w).
  - rewrite sm_save_png_cases. cbn zeta.
    destruct (negb _); [done|].
    destruct (bool_decide (filename w = "")); [done|]. by destruct (disk w).
  - unfold SymbolsMaker._reset. run. cbn.
    split; [rewrite (fill_zeros 5) by done; apply grid_ok_zeros|].
    split; [done|by left].
Qed.

End Invariant.

(** * The properties *)

(** C9. A pointer event whose coordinates, divided by the cell size, give a
    row or a column outside [0, N) changes nothing and raises nothing, in
    the toggle, paint and erase handlers of both programs. *)
Theorem pointer_outside_grid_is_ignored
  (a : GridMaker.GridDrawer) (b : SymbolsMaker.GridDrawer) (e8 e5 : Tk.Event) :
  outside GridMaker.CELL_SIZE GridMaker.GRID_SIZE e8 ->
  outside SymbolsMaker.CELL_SIZE SymbolsMaker.GRID_SIZE e5 ->
  Forall (fun handler => handler e8 a = (Ok tt, a, []))
    [GridMaker._toggle_cell; GridMaker._paint_motion;
     GridMaker._erase_cell; GridMaker._erase_motion] /\
  Forall (fun handler => handler e5 b = (Ok tt, b, []))
    [SymbolsMaker._toggle_cell; SymbolsMaker._paint_motion;
     SymbolsMaker._erase_cell; SymbolsMaker._erase_motion].
Proof.
  intros H8 H5.
  assert (GridMaker._coords_to_cell e8 = None) as E8.
  { apply gm_coords_none. unfold outside in H8. tauto. }
  assert (SymbolsMaker._coords_to_cell e5 = None) as E5.
  { apply sm_coords_none. unfold outside in H5. tauto. }
  split; repeat apply Forall_cons_2; try apply Forall_nil_2.
  - unfold GridMaker._toggle_cell. by rewrite E8.
  - unfold GridMaker._paint_motion. by rewrite E8.
  - unfold GridMaker._erase_cell. by rewrite E8.
  - unfold GridMaker._erase_motion, GridMaker._erase_cell. by rewrite E8.
  - unfold SymbolsMaker._toggle_cell. by rewrite E5.
  - unfold SymbolsMaker._paint_motion. by rewrite E5.
  - unfold SymbolsMaker._erase_cell. by rewrite E5.
  - unfold SymbolsMaker._erase_motion. by rewrite E5.
Qed.

Lemma pointer_outside_grid_is_ignored_witness :
  let a := GridMaker.init in
  let b := SymbolsMaker.init in
  let e8 := {| Tk.x := 400; Tk.y := 10 |} in
  let e5 := {| Tk.x := 3; Tk.y := -1 |} in
  outside GridMaker.CELL_SIZE GridMaker.GRID_SIZE e8 /\
  outside SymbolsMaker.CELL_SIZE SymbolsMaker.GRID_SIZE e5 /\
  GridMaker._toggle_cell e8 a = (Ok tt, a, []) /\
  SymbolsMaker._erase_cell e5 b = (Ok tt, b, []).
Proof.
  intros a b e8 e5.
  assert (outside GridMaker.CELL_SIZE GridMaker.GRID_SIZE e8) as H8.
  { apply (bool_decide_unpack _). by vm_compute. }
  assert (outside SymbolsMaker.CELL_SIZE SymbolsMaker.GRID_SIZE e5) as H5.
  { apply (bool_decide_unpack _). by vm_compute. }
  destruct (pointer_outside_grid_is_ignored a b e8 e5 H8 H5) as [Ha Hb].
  split; [exact H8|]. split; [exact H5|]. split.
  - exact (Forall_inv Ha).
  - exact (Forall_inv (Forall_inv_tail (Forall_inv_tail Hb))).
Defined.

(** C7. Two consecutive primary-button clicks on the same in-bounds cell,
    with nothing in between, give back the grid (and the rest of the
    widget state) exactly as it was before the first click. *)
Theorem toggle_twice_restores_grid
  (a : GridMaker.GridDrawer) (b : SymbolsMaker.GridDrawer)
  (click8 again8 click5 again5 : Tk.Event) :
  grid_ok 8 (GridMaker.state a) ->
  grid_ok 5 (SymbolsMaker.state b) ->
  is_Some (GridMaker._coords_to_cell click8) ->
  GridMaker._coords_to_cell again8 = GridMaker._coords_to_cell click8 ->
  is_Some (SymbolsMaker._coords_to_cell click5) ->
  SymbolsMaker._coords_to_cell again5 = SymbolsMaker._coords_to_cell click5 ->
  bind (GridMaker._toggle_cell click8) (fun _ => GridMaker._toggle_cell again8) a
    = (Ok tt, a, []) /\
  bind (SymbolsMaker._toggle_cell click5) (fun _ => SymbolsMaker._toggle_cell again5) b
    = (Ok tt, b, []).
Proof.
  intros Ha Hb [[r8 c8] E8] E8' [[r5 c5] E5] E5'. rewrite E8 in E8'. rewrite E5 in E5'.
  split.
  - destruct (gm_coords_some _ _ _ E8) as (_ & _ & Hr & Hc).
    destruct (gm_toggle_at _ _ _ _ Ha E8) as (v & Hv & Hbit & H1).
    unfold bind. rewrite H1.
    set (a1 := {| GridMaker.state := _ |}).
    assert (grid_ok 8 (GridMaker.state a1)) as Ha1.
    { apply grid_ok_set_cell; [done|]. destruct Hbit as [-> | ->]; [by right|by left]. }
    destruct (gm_toggle_at _ _ _ _ Ha1 E8') as (v1 & Hv1 & _ & H2).
    rewrite H2. simpl in *.
    rewrite (cell_set_cell_eq 8) in Hv1 by (done || lia). injection Hv1 as <-.
    rewrite set_cell_twice. replace (1 - (1 - v)) with v by lia.
    rewrite set_cell_id by done. by destruct a.
  - destruct (sm_coords_some _ _ _ E5) as (_ & _ & Hr & Hc).
    destruct (sm_toggle_at _ _ _ _ Hb E5) as (v & Hv & Hbit & H1).
    unfold bind. rewrite H1.
    set (b1 := {| SymbolsMaker.state := _ |}).
    assert (grid_ok 5 (SymbolsMaker.state b1)) as Hb1.
    { apply grid_ok_set_cell; [done|]. destruct Hbit as [-> | ->]; [by right|by left]. }
    destruct (sm_toggle_at _ _ _ _ Hb1 E5') as (v1 & Hv1 & _ & H2).
    rewrite H2. simpl in *.
    rewrite (cell_set_cell_eq 5) in Hv1 by (done || lia). injection Hv1 as <-.
    rewrite set_cell_twice. replace (1 - (1 - v)) with v by lia.
    rewrite set_cell_id by done. by destruct b.
Qed.

Lemma toggle_twice_restores_grid_witness :
  let a := {| GridMaker.state := set_cell (np.zeros 8 8) 2 3 1;
              GridMaker.samples := [] |} in
  let b := {| SymbolsMaker.state := set_cell (np.zeros 5 5) 4 4 1;
              SymbolsMaker.samples := [];
              SymbolsMaker.shape_var := 1 |} in
  let click8 := {| Tk.x := 160; Tk.y := 101 |} in
  let again8 := {| Tk.x := 199; Tk.y := 149 |} in
  let click5 := {| Tk.x := 0; Tk.y := 0 |} in
  bind (GridMaker._toggle_cell click8) (fun _ => GridMaker._toggle_cell again8) a
    = (Ok tt, a, []) /\
  bind (SymbolsMaker._toggle_cell click5) (fun _ => SymbolsMaker._toggle_cell click5) b
    = (Ok tt, b, []).
Proof.
  intros a b click8 again8 click5.
  apply (toggle_twice_restores_grid a b click8 again8 click5 click5).
  - apply (bool_decide_unpack _). by vm_compute.
  - apply (bool_decide_unpack _). by vm_compute.
  - exists (2, 3). reflexivity.
  - reflexivity.
  - exists (0, 0). reflexivity.
  - reflexivity.
Defined.

Lemma never_decreases_refl g : never_decreases g g.
Proof. intros r c v Hv. exists v. split; [done|lia]. Qed.

Lemma never_increases_refl g : never_increases g g.
Proof. intros r c v Hv. exists v. split; [done|lia]. Qed.

(** C8. Paint (primary-button drag) forces the addressed cell to 1, leaves
    every other cell as it was, so never decreases a cell, and doing it
    again changes nothing; erase (secondary-button click or drag) does the
    same with 0 and never increases a cell.  An event that addresses no
    cell changes nothing. *)
Theorem paint_and_erase_are_monotone_and_idempotent
  (a : GridMaker.GridDrawer) (b : SymbolsMaker.GridDrawer) (event : Tk.Event) :
  grid_ok 8 (GridMaker.state a) ->
  grid_ok 5 (SymbolsMaker.state b) ->
  (exists a',
      GridMaker._paint_motion event a = (Ok tt, a', []) /\
      forced (GridMaker._coords_to_cell event) 1 (GridMaker.state a) (GridMaker.state a') /\
      never_decreases (GridMaker.state a) (GridMaker.state a') /\
      GridMaker._paint_motion event a' = (Ok tt, a', [])) /\
  Forall (fun erase => exists a',
      erase event a = (Ok tt, a', []) /\
      forced (GridMaker._coords_to_cell event) 0 (GridMaker.state a) (GridMaker.state a') /\
      never_increases (GridMaker.state a) (GridMaker.state a') /\
      erase event a' = (Ok tt, a', []))
    [GridMaker._erase_cell; GridMaker._erase_motion] /\
  (exists b',
      SymbolsMaker._paint_motion event b = (Ok tt, b', []) /\
      forced (SymbolsMaker._coords_to_cell event) 1 (SymbolsMaker.state b) (SymbolsMaker.state b') /\
      never_decreases (SymbolsMaker.state b) (SymbolsMaker.state b') /\
      SymbolsMaker._paint_motion event b' = (Ok tt, b', [])) /\
  Forall (fun erase => exists b',
      erase event b = (Ok tt, b', []) /\
      forced (SymbolsMaker._coords_to_cell event) 0 (SymbolsMaker.state b) (SymbolsMaker.state b') /\
      never_increases (SymbolsMaker.state b) (SymbolsMaker.state b') /\
      erase event b' = (Ok tt, b', []))
    [SymbolsMaker._erase_cell; SymbolsMaker._erase_motion].
Proof.
  intros Ha Hb.
  assert (is_bit 1) as Hone by (by right).
  assert (is_bit 0) as Hzero by (by left).
  split; [|split; [|split]].
  - destruct (GridMaker._coords_to_cell event) as [[r c]|] eqn:E.
    + destruct (gm_coords_some _ _ _ E) as (_ & _ & Hr & Hc).
      eexists. split; [by apply gm_paint_at|]. simpl.
      split; [apply (forced_set_cell 8); (done || lia)|].
      split; [by eapply set_cell_one_never_decreases|].
      rewrite (gm_paint_at _ r c) by (done || by apply grid_ok_set_cell).
      simpl. by rewrite set_cell_twice.
    + exists a. unfold GridMaker._paint_motion. rewrite E.
      repeat split; try done. apply never_decreases_refl.
  - assert (exists a', GridMaker._erase_cell event a = (Ok tt, a', []) /\
              forced (GridMaker._coords_to_cell event) 0
                (GridMaker.state a) (GridMaker.state a') /\
              never_increases (GridMaker.state a) (GridMaker.state a') /\
              GridMaker._erase_cell event a' = (Ok tt, a', [])) as Herase.
    { destruct (GridMaker._coords_to_cell event) as [[r c]|] eqn:E.
      + destruct (gm_coords_some _ _ _ E) as (_ & _ & Hr & Hc).
        eexists. split; [by apply gm_erase_at|]. simpl.
        split; [apply (forced_set_cell 8); (done || lia)|].
        split; [by eapply set_cell_zero_never_increases|].
        rewrite (gm_erase_at _ r c) by (done || by apply grid_ok_set_cell).
        simpl. by rewrite set_cell_twice.
      + exists a. unfold GridMaker._erase_cell. rewrite E.
        repeat split; try done. apply never_increases_refl. }
    repeat apply Forall_cons_2; [exact Herase|exact Herase|apply Forall_nil_2].
  - destruct (SymbolsMaker._coords_to_cell event) as [[r c]|] eqn:E.
    + destruct (sm_coords_some _ _ _ E) as (_ & _ & Hr & Hc).
      eexists. split; [by apply sm_paint_at|]. simpl.
      split; [apply (forced_set_cell 5); (done || lia)|].
      split; [by eapply set_cell_one_never_decreases|].
      rewrite (sm_paint_at _ r c) by (done || by apply grid_ok_set_cell).
      simpl. by rewrite set_cell_twice.
    + exists b. unfold SymbolsMaker._paint_motion. rewrite E.
      repeat split; try done. apply never_decreases_refl.
  - assert (exists b', SymbolsMaker._erase_cell event b = (Ok tt, b', []) /\
              forced (SymbolsMaker._coords_to_cell event) 0
                (SymbolsMaker.state b) (SymbolsMaker.state b') /\
              never_increases (SymbolsMaker.state b) (SymbolsMaker.state b') /\
              SymbolsMaker._erase_cell event b' = (Ok tt, b', [])) as Herase.
    { destruct (SymbolsMaker._coords_to_cell event) as [[r c]|] eqn:E.
      + destruct (sm_coords_some _ _ _ E) as (_ & _ & Hr & Hc).
        eexists. split; [by apply sm_erase_at|]. simpl.
        split; [apply (forced_set_cell 5); (done || lia)|].
        split; [by eapply set_cell_zero_never_increases|].
        rewrite (sm_erase_at _ r c) by (done || by apply grid_ok_set_cell).
        simpl. by rewrite set_cell_twice.
      + exists b. unfold SymbolsMaker._erase_cell. rewrite E.
        repeat split; try done. apply never_increases_refl. }
    repeat apply Forall_cons_2; [exact Herase|exact Herase|apply Forall_nil_2].
Qed.

Lemma paint_and_erase_are_monotone_and_idempotent_witness :
  let a := {| GridMaker.state := set_cell (np.zeros 8 8) 1 1 1;
              GridMaker.samples := [] |} in
  let event := {| Tk.x := 60; Tk.y := 70 |} in
  exists a',
    GridMaker._paint_motion event a = (Ok tt, a', []) /\
    forced (GridMaker._coords_to_cell event) 1 (GridMaker.state a) (GridMaker.state a') /\
    never_decreases (GridMaker.state a) (GridMaker.state a') /\
    GridMaker._paint_motion event a' = (Ok tt, a', []).
Proof.
  intros a event.
  refine (proj1 (paint_and_erase_are_monotone_and_idempotent a SymbolsMaker.init event _ _)).
  - apply (bool_decide_unpack _). by vm_compute.
  - apply (bool_decide_unpack _). by vm_compute.
Defined.

(** C1. Commit warns and leaves grid, label and store as they were exactly
    when the grid is entirely zero.  Otherwise it appends one sample, the
    flattening of the grid (64 entries; 25 plus the label in the labelled
    program), and resets the grid, and the label, to zero. *)
Theorem commit_warns_iff_empty_else_appends_and_resets
  (a : GridMaker.GridDrawer) (b : SymbolsMaker.GridDrawer) :
  grid_ok 8 (GridMaker.state a) ->
  grid_ok 5 (SymbolsMaker.state b) ->
  let oa := GridMaker._next a in
  let ob := SymbolsMaker._next b in
  (outcome oa = Ok tt /\
   (GridMaker.state a = np.zeros 8 8 <->
      existsb is_warning (effects oa) = true /\ final oa = a) /\
   (GridMaker.state a <> np.zeros 8 8 ->
      GridMaker.samples (final oa)
        = GridMaker.samples a ++ [np.flatten (GridMaker.state a)] /\
      length (np.flatten (GridMaker.state a)) = 64%nat /\
      GridMaker.state (final oa) = np.zeros 8 8)) /\
  (outcome ob = Ok tt /\
   (SymbolsMaker.state b = np.zeros 5 5 <->
      existsb is_warning (effects ob) = true /\ final ob = b) /\
   (SymbolsMaker.state b <> np.zeros 5 5 ->
      SymbolsMaker.samples (final ob)
        = SymbolsMaker.samples b
            ++ [np.flatten (SymbolsMaker.state b) ++ [SymbolsMaker.shape_var b]] /\
      length (np.flatten (SymbolsMaker.state b) ++ [SymbolsMaker.shape_var b]) = 26%nat /\
      SymbolsMaker.state (final ob) = np.zeros 5 5 /\
      SymbolsMaker.shape_var (final ob) = 0)).
Proof.
  intros Ha Hb oa ob. split.
  - destruct (np.any (GridMaker.state a)) eqn:Hany.
    + assert (GridMaker.state a <> np.zeros 8 8) as Hnz.
      { intros Hz%(any_false_zeros 8); [congruence|done]. }
      subst oa. rewrite (gm_next_drawn a Hany). cbn.
      split; [done|]. split; [split; [done|by intros [? _]]|].
      intros _. split; [done|]. split; [by apply (length_flatten 8)|].
      by apply fill_zeros.
    + assert (GridMaker.state a = np.zeros 8 8) as Hz by (by apply any_false_zeros).
      subst oa. rewrite (gm_next_empty a Hany). cbn.
      split; [done|]. split; [done|]. done.
  - destruct (np.any (SymbolsMaker.state b)) eqn:Hany.
    + assert (SymbolsMaker.state b <> np.zeros 5 5) as Hnz.
      { intros Hz%(any_false_zeros 5); [congruence|done]. }
      subst ob. rewrite (sm_next_drawn b Hany). cbn.
      split; [done|]. split; [split; [done|by intros [? _]]|].
      intros _. split; [done|].
      split; [rewrite length_app, (length_flatten 5) by done; done|].
      split; [by apply fill_zeros|done].
    + assert (SymbolsMaker.state b = np.zeros 5 5) as Hz by (by apply any_false_zeros).
      subst ob. rewrite (sm_next_empty b Hany). cbn.
      split; [done|]. split; [done|]. done.
Qed.

(** C2. With samples S1..Sk stored and a drawing on the grid, a path chosen
    and the disk accepting the write, export-to-table writes one file of
    exactly k+1 comma-separated integer lines: S1..Sk in order, then the
    flattened current drawing (with its label in the labelled program).
    Whenever the store is empty after the current drawing has been merged
    in, export warns, asks for no path and opens no file. *)
Theorem export_writes_store_then_current_drawing
  (a : GridMaker.GridDrawer) (b : SymbolsMaker.GridDrawer) (w : world) :
  (Forall (sample_ok 64) (GridMaker.samples a) ->
   grid_ok 8 (GridMaker.state a) ->
   np.any (GridMaker.state a) = true ->
   Forall (sample_ok 26) (SymbolsMaker.samples b) ->
   grid_ok 5 (SymbolsMaker.state b) ->
   is_bit (SymbolsMaker.shape_var b) ->
   np.any (SymbolsMaker.state b) = true ->
   filename w <> "" ->
   disk w = None ->
   let rows8 := GridMaker.samples a ++ [np.flatten (GridMaker.state a)] in
   let rows5 :=
     SymbolsMaker.samples b
       ++ [np.flatten (SymbolsMaker.state b) ++ [SymbolsMaker.shape_var b]] in
   tables_written (effects (GridMaker._save_all w a))
     = [(filename w, csv_line <$> rows8)] /\
   length (csv_line <$> rows8) = S (length (GridMaker.samples a)) /\
   tables_written (effects (SymbolsMaker._save_all w b))
     = [(filename w, csv_line <$> rows5)] /\
   length (csv_line <$> rows5) = S (length (SymbolsMaker.samples b))) /\
  (GridMaker.samples a
     ++ (if np.any (GridMaker.state a) then [np.flatten (GridMaker.state a)] else [])
     = [] ->
   let o := GridMaker._save_all w a in
   outcome o = Ok tt /\ final o = a /\
   existsb is_warning (effects o) = true /\
   existsb is_dialog (effects o) = false /\
   existsb is_file_io (effects o) = false) /\
  (SymbolsMaker.samples b
     ++ (if np.any (SymbolsMaker.state b)
         then [np.flatten (SymbolsMaker.state b) ++ [SymbolsMaker.shape_var b]]
         else [])
     = [] ->
   let o := SymbolsMaker._save_all w b in
   outcome o = Ok tt /\ final o = b /\
   existsb is_warning (effects o) = true /\
   existsb is_dialog (effects o) = false /\
   existsb is_file_io (effects o) = false).
Proof.
  split; [|split].
  - intros Hsa Hga Hany8 Hsb Hgb Hlabel Hany5 Hname Hdisk rows8 rows5.
    rewrite gm_save_all_cases, sm_save_all_cases. simpl.
    rewrite Hany8, Hany5, andb_false_r.
    rewrite (bool_decide_eq_false_2 (filename w = "")) by done.
    rewrite (bool_decide_eq_false_2 (_ = [])) by (by destruct (SymbolsMaker.samples b)).
    fold rows8 rows5.
    rewrite (vstack_ok 64 rows8), (array_ok 26 rows5).
    + rewrite Hdisk. cbn. rewrite !length_fmap. subst rows8 rows5.
      rewrite !length_app. simpl. repeat split; (done || lia).
    + apply Forall_app. split; [done|]. apply Forall_singleton. split.
      * rewrite length_app, (length_flatten 5) by done. done.
      * apply Forall_app. split; [|by apply Forall_singleton].
        by destruct (sample_ok_flatten 5 _ Hgb).
    + apply Forall_app. split; [done|]. apply Forall_singleton.
      exact (sample_ok_flatten 8 _ Hga).
    + subst rows8. by destruct (GridMaker.samples a).
  - intros Hempty o. subst o. rewrite gm_save_all_cases. simpl.
    apply app_eq_nil in Hempty as [Hs Hd].
    destruct (np.any (GridMaker.state a)) eqn:Hany; [done|].
    rewrite bool_decide_eq_true_2 by done. simpl. done.
  - intros Hempty o. subst o. rewrite sm_save_all_cases. simpl.
    destruct (np.any (SymbolsMaker.state b)) eqn:Hany.
    { by destruct (SymbolsMaker.samples b). }
    rewrite app_nil_r in *. rewrite Hempty. cbn.
    repeat split. destruct b; simpl in *; by subst.
Qed.

(** C6. Export-to-table with a drawing on the grid appends the flattened
    drawing to the store before the path dialog is shown: the dialog is
    logged with the store already grown.  When the user then cancels (the
    dialog returns the empty string) nothing else happens: no file is
    opened, and the handler returns with the store grown by that sample and
    the grid still holding the drawing. *)
Theorem cancelled_export_keeps_the_merged_drawing
  (a : GridMaker.GridDrawer) (b : SymbolsMaker.GridDrawer) (w : world) :
  np.any (GridMaker.state a) = true ->
  np.any (SymbolsMaker.state b) = true ->
  filename w = "" ->
  let a' :=
    {| GridMaker.state := GridMaker.state a;
       GridMaker.samples := GridMaker.samples a ++ [np.flatten (GridMaker.state a)] |} in
  let b' :=
    {| SymbolsMaker.state := SymbolsMaker.state b;
       SymbolsMaker.samples :=
         SymbolsMaker.samples b
           ++ [np.flatten (SymbolsMaker.state b) ++ [SymbolsMaker.shape_var b]];
       SymbolsMaker.shape_var := SymbolsMaker.shape_var b |} in
  GridMaker._save_all w a = (Ok tt, a', [(asksaveasfilename "", a')]) /\
  existsb is_file_io (effects (GridMaker._save_all w a)) = false /\
  np.any (GridMaker.state (final (GridMaker._save_all w a))) = true /\
  SymbolsMaker._save_all w b = (Ok tt, b', [(asksaveasfilename "", b')]) /\
  existsb is_file_io (effects (SymbolsMaker._save_all w b)) = false /\
  np.any (SymbolsMaker.state (final (SymbolsMaker._save_all w b))) = true.
Proof.
  intros Hany8 Hany5 Hname a' b'.
  assert (GridMaker._save_all w a = (Ok tt, a', [(asksaveasfilename "", a')])) as Ea.
  { rewrite gm_save_all_cases. simpl. rewrite Hany8, andb_false_r, Hname. done. }
  assert (SymbolsMaker._save_all w b = (Ok tt, b', [(asksaveasfilename "", b')])) as Eb.
  { rewrite sm_save_all_cases. simpl. rewrite Hany5, Hname.
    rewrite (bool_decide_eq_false_2 (_ = [])) by (by destruct (SymbolsMaker.samples b)).
    done. }
  rewrite Ea, Eb. by repeat split.
Qed.

(** C3, as the code has it.  When the file write of an export-to-table
    fails, the grid and the label are as before and the store is not
    cleared: it is the store from before the invocation followed by the
    flattened current drawing when the grid holds one (the merge happens
    before the dialog), and exactly the store from before when the grid is
    all zero.  In grid_maker.py the handler returns normally after an error
    box that carries the text of the exception. *)
Theorem failed_export_keeps_grid_and_merged_store
  (a : GridMaker.GridDrawer) (b : SymbolsMaker.GridDrawer) (w : world) :
  let oa := GridMaker._save_all w a in
  let ob := SymbolsMaker._save_all w b in
  (existsb is_failed_write (effects oa) = true ->
   GridMaker.state (final oa) = GridMaker.state a /\
   GridMaker.samples (final oa)
     = GridMaker.samples a
         ++ (if np.any (GridMaker.state a) then [np.flatten (GridMaker.state a)] else []) /\
   outcome oa = Ok tt /\
   exists exc,
     disk w = Some exc /\
     last (effects oa) = Some (showerror "Error" ("No se pudo guardar: " +:+ str exc))) /\
  (existsb is_failed_write (effects ob) = true ->
   SymbolsMaker.state (final ob) = SymbolsMaker.state b /\
   SymbolsMaker.shape_var (final ob) = SymbolsMaker.shape_var b /\
   SymbolsMaker.samples (final ob)
     = SymbolsMaker.samples b
         ++ (if np.any (SymbolsMaker.state b)
             then [np.flatten (SymbolsMaker.state b) ++ [SymbolsMaker.shape_var b]]
             else [])).
Proof.
  intros oa ob. subst oa ob. split.
  - rewrite gm_save_all_cases. simpl.
    destruct (bool_decide (GridMaker.samples a = []) && _); [done|].
    destruct (bool_decide (filename w = "")); [done|].
    destruct (np.vstack _); [|done].
    destruct (disk w) as [exc|]; [|done].
    intros _. repeat split. by exists exc.
  - rewrite sm_save_all_cases. simpl.
    destruct (bool_decide (_ = [])); [done|].
    destruct (bool_decide (filename w = "")); [done|].
    destruct (np.array _); [|done].
    by destruct (disk w).
Qed.

(** C10. After a successful write of the table, grid_maker.py has emptied
    the store, while symbols_maker.py returns with the store exactly as it
    was when the file was written: the store from before the invocation
    followed by the current drawing if there was one. *)
Theorem after_successful_export_one_clears_the_other_keeps
  (a : GridMaker.GridDrawer) (b : SymbolsMaker.GridDrawer) (w : world) :
  let oa := GridMaker._save_all w a in
  let ob := SymbolsMaker._save_all w b in
  (existsb is_written (effects oa) = true ->
   GridMaker.samples (final oa) = []) /\
  (existsb is_written (effects ob) = true ->
   Forall (fun step =>
             is_written step.1 = true ->
             SymbolsMaker.samples (final ob) = SymbolsMaker.samples step.2)
          (history ob) /\
   SymbolsMaker.samples (final ob)
     = SymbolsMaker.samples b
         ++ (if np.any (SymbolsMaker.state b)
             then [np.flatten (SymbolsMaker.state b) ++ [SymbolsMaker.shape_var b]]
             else []) /\
   SymbolsMaker.samples (final ob) <> []).
Proof.
  intros oa ob. subst oa ob. split.
  - rewrite gm_save_all_cases. simpl.
    destruct (bool_decide (GridMaker.samples a = []) && _); [done|].
    destruct (bool_decide (filename w = "")); [done|].
    destruct (np.vstack _); [|done].
    by destruct (disk w).
  - rewrite sm_save_all_cases. simpl.
    destruct (bool_decide (_ = [])) eqn:Hempty; [done|].
    apply bool_decide_eq_false in Hempty.
    destruct (bool_decide (filename w = "")); [done|].
    destruct (np.array _); [|done].
    destruct (disk w); [done|]. intros _. cbn.
    split; [|done]. by repeat constructor.
Qed.

(** C5. The vector that commit stores, and the vector that export merges
    into the store before it asks for a path, hold the value of cell
    (row [r], column [c]) at index [r * N + c], for all [r], [c] below [N]. *)
Theorem flattening_is_row_major
  (a : GridMaker.GridDrawer) (b : SymbolsMaker.GridDrawer) (w : world)
  (r8 c8 r5 c5 : nat) :
  grid_ok 8 (GridMaker.state a) ->
  np.any (GridMaker.state a) = true ->
  (r8 < 8)%nat -> (c8 < 8)%nat ->
  grid_ok 5 (SymbolsMaker.state b) ->
  np.any (SymbolsMaker.state b) = true ->
  (r5 < 5)%nat -> (c5 < 5)%nat ->
  (exists v vec merged,
      cell (GridMaker.state a) r8 c8 = Some v /\
      vec !! (r8 * 8 + c8)%nat = Some v /\
      GridMaker.samples (final (GridMaker._next a)) = GridMaker.samples a ++ [vec] /\
      head (history (GridMaker._save_all w a))
        = Some (asksaveasfilename (filename w), merged) /\
      GridMaker.samples merged = GridMaker.samples a ++ [vec]) /\
  (exists v vec merged,
      cell (SymbolsMaker.state b) r5 c5 = Some v /\
      vec !! (r5 * 5 + c5)%nat = Some v /\
      SymbolsMaker.samples (final (SymbolsMaker._next b)) = SymbolsMaker.samples b ++ [vec] /\
      head (history (SymbolsMaker._save_all w b))
        = Some (asksaveasfilename (filename w), merged) /\
      SymbolsMaker.samples merged = SymbolsMaker.samples b ++ [vec]).
Proof.
  intros Hga Hany8 Hr8 Hc8 Hgb Hany5 Hr5 Hc5. split.
  - destruct (grid_ok_cell 8 _ r8 c8 Hga Hr8 Hc8) as (_ & v & _ & _ & _ & _ & Hv).
    exists v, (np.flatten (GridMaker.state a)).
    eexists. split; [done|].
    split; [by rewrite (flatten_lookup 8) by (by apply grid_ok_rows || done)|].
    rewrite (gm_next_drawn a Hany8), gm_save_all_cases. simpl.
    rewrite Hany8, andb_false_r.
    split; [done|].
    destruct (bool_decide (filename w = "")); [done|].
    destruct (np.vstack _); [|done]. by destruct (disk w).
  - destruct (grid_ok_cell 5 _ r5 c5 Hgb Hr5 Hc5) as (_ & v & _ & _ & _ & _ & Hv).
    exists v, (np.flatten (SymbolsMaker.state b) ++ [SymbolsMaker.shape_var b]).
    eexists. split; [done|].
    split.
    { rewrite lookup_app_l by (rewrite (length_flatten 5) by done; nia).
      by rewrite (flatten_lookup 5) by (by apply grid_ok_rows || done). }
    rewrite (sm_next_drawn b Hany5), sm_save_all_cases. simpl.
    rewrite Hany5.
    split; [done|].
    rewrite (bool_decide_eq_false_2 (_ = [])) by (by destruct (SymbolsMaker.samples b)).
    destruct (bool_decide (filename w = "")); [done|].
    destruct (np.array _); [|done]. by destruct (disk w).
Qed.

(** C4, as the code has it.  When export-to-image writes a file (a path is
    chosen and the disk accepts it), the image has one channel and only the
    values 0 and 255.  In grid_maker.py it has one pixel for each cell
    (8 x 8 pixels, no scaling), 1-cells at 0 and 0-cells at 255.  In
    symbols_maker.py it is [GRID_SIZE * CELL_SIZE] pixels on each side,
    pixel ([y], [x]) taking the value of cell ([y / CELL_SIZE],
    [x / CELL_SIZE]), 1-cells at 255 and 0-cells at 0; an all-zero grid is
    refused there with a warning and no image is written. *)
Theorem exported_image_maps_cells_to_two_values
  (a : GridMaker.GridDrawer) (b : SymbolsMaker.GridDrawer) (w : world) :
  grid_ok 8 (GridMaker.state a) ->
  grid_ok 5 (SymbolsMaker.state b) ->
  filename w <> "" ->
  disk w = None ->
  (exists im,
      images_written (effects (GridMaker._save_png_current w a)) = [(filename w, im)] /\
      length im = 8%nat /\
      Forall (fun row => length row = 8%nat) im /\
      forall (r c : nat) (v : Z),
        cell (GridMaker.state a) r c = Some v ->
        cell im r c = Some (if bool_decide (v = 1) then 0 else 255)) /\
  (np.any (SymbolsMaker.state b) = true ->
   exists im,
      images_written (effects (SymbolsMaker._save_png_current w b)) = [(filename w, im)] /\
      length im = Z.to_nat (SymbolsMaker.GRID_SIZE * SymbolsMaker.CELL_SIZE) /\
      Forall (fun row =>
                length row = Z.to_nat (SymbolsMaker.GRID_SIZE * SymbolsMaker.CELL_SIZE)) im /\
      forall y x : nat,
        Z.of_nat y < SymbolsMaker.GRID_SIZE * SymbolsMaker.CELL_SIZE ->
        Z.of_nat x < SymbolsMaker.GRID_SIZE * SymbolsMaker.CELL_SIZE ->
        exists v,
          cell (SymbolsMaker.state b)
               (Z.to_nat (Z.of_nat y / SymbolsMaker.CELL_SIZE))
               (Z.to_nat (Z.of_nat x / SymbolsMaker.CELL_SIZE)) = Some v /\
          cell im y x = Some (if bool_decide (v = 1) then 255 else 0)) /\
  (np.any (SymbolsMaker.state b) = false ->
   let o := SymbolsMaker._save_png_current w b in
   outcome o = Ok tt /\
   existsb is_warning (effects o) = true /\
   existsb is_file_io (effects o) = false /\
   images_written (effects o) = []).
Proof.
  intros Hga Hgb Hname Hdisk. split; [|split].
  - rewrite gm_save_png_cases. cbn zeta.
    rewrite (bool_decide_eq_false_2 (filename w = "")) by done. rewrite Hdisk.
    eexists. split; [reflexivity|]. unfold Image.fromarray.
    split; [by rewrite length_fmap; apply grid_ok_length|].
    split.
    + apply Forall_fmap. eapply Forall_impl; [exact (grid_ok_rows 8 _ Hga)|].
      intros row Hrow. simpl. by rewrite length_fmap.
    + intros r c v Hv. rewrite cell_fmap, Hv. simpl. f_equal.
      destruct (cell_in_range 8 _ r c v Hga Hv) as [Hr Hc].
      destruct (grid_ok_cell 8 _ r c Hga Hr Hc) as (_ & v' & _ & _ & _ & Hbit & Hv').
      rewrite Hv in Hv'. injection Hv' as <-.
      by destruct Hbit as [-> | ->].
  - intros Hany. rewrite sm_save_png_cases. cbn zeta.
    rewrite Hany. cbn [negb].
    rewrite (bool_decide_eq_false_2 (filename w = "")) by done. rewrite Hdisk.
    eexists. split; [reflexivity|].
    destruct (length_resize
                (Image.fromarray
                   ((fun row : list Z =>
                       (fun v => np.uint8 (np.int64 (v * 255))) <$> row)
                      <$> SymbolsMaker.state b))
                (SymbolsMaker.GRID_SIZE * SymbolsMaker.CELL_SIZE)
                (SymbolsMaker.GRID_SIZE * SymbolsMaker.CELL_SIZE)) as [Hlen Hrows].
    split; [exact Hlen|]. split; [exact Hrows|].
    intros y x Hy Hx.
    assert (0 <= Z.of_nat y / SymbolsMaker.CELL_SIZE < 5) as Hy5.
    { unfold SymbolsMaker.CELL_SIZE, SymbolsMaker.GRID_SIZE in *. split.
      - apply Z.div_pos; lia.
      - apply Z.div_lt_upper_bound; lia. }
    assert (0 <= Z.of_nat x / SymbolsMaker.CELL_SIZE < 5) as Hx5.
    { unfold SymbolsMaker.CELL_SIZE, SymbolsMaker.GRID_SIZE in *. split.
      - apply Z.div_pos; lia.
      - apply Z.div_lt_upper_bound; lia. }
    destruct (grid_ok_cell 5 _ (Z.to_nat (Z.of_nat y / SymbolsMaker.CELL_SIZE))
                (Z.to_nat (Z.of_nat x / SymbolsMaker.CELL_SIZE)) Hgb)
      as (_ & v & _ & _ & _ & Hbit & Hv); [lia..|].
    exists v. split; [exact Hv|].
    rewrite resize_lookup by done. f_equal.
    unfold Image.fromarray. rewrite length_fmap, (grid_ok_length 5 _ Hgb).
    rewrite list_lookup_fmap.
    destruct (grid_ok_cell 5 _ 0 0 Hgb) as (row0 & _ & Hrow0 & _ & Hlen0 & _); [lia..|].
    rewrite Hrow0. simpl. rewrite length_fmap, Hlen0.
    change (SymbolsMaker.GRID_SIZE * SymbolsMaker.CELL_SIZE)
      with (5 * SymbolsMaker.CELL_SIZE).
    change (Z.of_nat 5) with 5.
    rewrite !centre_of_block by (unfold SymbolsMaker.CELL_SIZE; lia).
    unfold Image.getpixel.
    fold (cell ((fun row : list Z =>
                   (fun v => np.uint8 (np.int64 (v * 255))) <$> row)
                  <$> SymbolsMaker.state b)
               (Z.to_nat (Z.of_nat y / SymbolsMaker.CELL_SIZE))
               (Z.to_nat (Z.of_nat x / SymbolsMaker.CELL_SIZE))).
    rewrite cell_fmap, Hv. simpl.
    by destruct Hbit as [-> | ->].
  - intros Hany o. subst o. rewrite sm_save_png_cases. cbn zeta.
    rewrite Hany. by cbn.
Qed.

(** The two examples of the specification: committing [drawing8] stores
    64 entries, the first 1 and the rest 0; committing [drawing5] stores 26
    entries, all 0 but the cell at index 24 and the label at index 25. *)
Example commit_drawing8 :
  GridMaker.samples (final (GridMaker._next drawing8)) = [1 :: replicate 63 0].
Proof. reflexivity. Qed.

Example commit_drawing5 :
  SymbolsMaker.samples (final (SymbolsMaker._next drawing5))
    = [replicate 24 0 ++ [1; 1]].
Proof. reflexivity. Qed.

Lemma commit_warns_iff_empty_else_appends_and_resets_witness :
  (GridMaker.samples (final (GridMaker._next drawing8))
     = GridMaker.samples drawing8 ++ [np.flatten (GridMaker.state drawing8)] /\
   length (np.flatten (GridMaker.state drawing8)) = 64%nat /\
   GridMaker.state (final (GridMaker._next drawing8)) = np.zeros 8 8) /\
  (SymbolsMaker.state SymbolsMaker.init = np.zeros 5 5 <->
     existsb is_warning (effects (SymbolsMaker._next SymbolsMaker.init)) = true /\
     final (SymbolsMaker._next SymbolsMaker.init) = SymbolsMaker.init).
Proof.
  assert (grid_ok 8 (GridMaker.state drawing8)) as Ha.
  { apply (bool_decide_unpack _). by vm_compute. }
  assert (grid_ok 5 (SymbolsMaker.state SymbolsMaker.init)) as Hb.
  { apply (bool_decide_unpack _). by vm_compute. }
  destruct (commit_warns_iff_empty_else_appends_and_resets
              drawing8 SymbolsMaker.init Ha Hb) as [(_ & _ & Hdrawn) (_ & Hempty & _)].
  split; [|exact Hempty].
  apply Hdrawn. vm_compute. discriminate.
Defined.

Lemma export_writes_store_then_current_drawing_witness :
  let a := {| GridMaker.state := GridMaker.state drawing8;
              GridMaker.samples := [replicate 64 1] |} in
  let w := disk_accepts "out.csv" in
  tables_written (effects (GridMaker._save_all w a))
    = [("out.csv",
        csv_line <$> (GridMaker.samples a ++ [np.flatten (GridMaker.state a)]))] /\
  length (csv_line <$> (GridMaker.samples a ++ [np.flatten (GridMaker.state a)]))
    = 2%nat /\
  tables_written (effects (SymbolsMaker._save_all w drawing5))
    = [("out.csv",
        csv_line <$> (SymbolsMaker.samples drawing5
                        ++ [np.flatten (SymbolsMaker.state drawing5)
                              ++ [SymbolsMaker.shape_var drawing5]]))] /\
  length (csv_line <$> (SymbolsMaker.samples drawing5
                          ++ [np.flatten (SymbolsMaker.state drawing5)
                                ++ [SymbolsMaker.shape_var drawing5]]))
    = 1%nat.
Proof.
  intros a w.
  refine (proj1 (export_writes_store_then_current_drawing a drawing5 w) _ _ _ _ _ _ _ _ _).
  - apply (bool_decide_unpack _). by vm_compute.
  - apply (bool_decide_unpack _). by vm_compute.
  - reflexivity.
  - apply (bool_decide_unpack _). by vm_compute.
  - apply (bool_decide_unpack _). by vm_compute.
  - apply (bool_decide_unpack _). by vm_compute.
  - reflexivity.
  - discriminate.
  - reflexivity.
Defined.

Lemma cancelled_export_keeps_the_merged_drawing_witness :
  let w := disk_accepts "" in
  let a' :=
    {| GridMaker.state := GridMaker.state drawing8;
       GridMaker.samples := [np.flatten (GridMaker.state drawing8)] |} in
  GridMaker._save_all w drawing8 = (Ok tt, a', [(asksaveasfilename "", a')]).
Proof.
  intros w a'.
  refine (proj1 (cancelled_export_keeps_the_merged_drawing drawing8 drawing5 w _ _ _));
    reflexivity.
Defined.

(** C3 as stated fails: with [drawing8] on the grid and a disk that refuses
    the write, the store holds one sample more after the failed export than
    before it; in symbols_maker.py the same happens and, besides, no error
    box is shown: the exception leaves the handler. *)
Lemma failed_export_changes_the_store :
  let w := disk_refuses "out.csv" in
  let oa := GridMaker._save_all w drawing8 in
  let ob := SymbolsMaker._save_all w drawing5 in
  (existsb is_failed_write (effects oa) = true /\
   GridMaker.samples drawing8 = [] /\
   GridMaker.samples (final oa) = [1 :: replicate 63 0] /\
   final oa <> drawing8) /\
  (existsb is_failed_write (effects ob) = true /\
   SymbolsMaker.samples drawing5 = [] /\
   SymbolsMaker.samples (final ob) = [replicate 24 0 ++ [1; 1]] /\
   final ob <> drawing5 /\
   existsb is_error (effects ob) = false /\
   outcome ob = Raise (OSError "Permission denied")).
Proof.
  cbv zeta. split.
  - repeat split; try reflexivity.
    intros H. apply (f_equal GridMaker.samples) in H. vm_compute in H. discriminate.
  - repeat split; try reflexivity.
    intros H. apply (f_equal SymbolsMaker.samples) in H. vm_compute in H. discriminate.
Qed.

Lemma failed_export_keeps_grid_and_merged_store_witness :
  let w := disk_refuses "out.csv" in
  let oa := GridMaker._save_all w drawing8 in
  GridMaker.state (final oa) = GridMaker.state drawing8 /\
  GridMaker.samples (final oa)
    = GridMaker.samples drawing8
        ++ (if np.any (GridMaker.state drawing8)
            then [np.flatten (GridMaker.state drawing8)] else []) /\
  outcome oa = Ok tt /\
  exists exc,
    disk w = Some exc /\
    last (effects oa) = Some (showerror "Error" ("No se pudo guardar: " +:+ str exc)).
Proof.
  intros w oa.
  refine (proj1 (failed_export_keeps_grid_and_merged_store drawing8 drawing5 w) _).
  reflexivity.
Defined.

Lemma after_successful_export_one_clears_the_other_keeps_witness :
  let w := disk_accepts "out.csv" in
  GridMaker.samples (final (GridMaker._save_all w drawing8)) = [] /\
  SymbolsMaker.samples (final (SymbolsMaker._save_all w drawing5)) <> [].
Proof.
  intros w.
  destruct (after_successful_export_one_clears_the_other_keeps drawing8 drawing5 w)
    as [Ha Hb].
  split.
  - apply Ha. reflexivity.
  - destruct Hb as (_ & _ & Hne); [reflexivity|exact Hne].
Defined.

Lemma flattening_is_row_major_witness :
  exists v vec merged,
    cell (GridMaker.state drawing8) 0 0 = Some v /\
    vec !! (0 * 8 + 0)%nat = Some v /\
    GridMaker.samples (final (GridMaker._next drawing8))
      = GridMaker.samples drawing8 ++ [vec] /\
    head (history (GridMaker._save_all (disk_accepts "out.csv") drawing8))
      = Some (asksaveasfilename (filename (disk_accepts "out.csv")), merged) /\
    GridMaker.samples merged = GridMaker.samples drawing8 ++ [vec].
Proof.
  refine (proj1 (flattening_is_row_major drawing8 drawing5 (disk_accepts "out.csv")
                   0 0 4 4 _ _ _ _ _ _ _ _)).
  - apply (bool_decide_unpack _). by vm_compute.
  - reflexivity.
  - lia.
  - lia.
  - apply (bool_decide_unpack _). by vm_compute.
  - reflexivity.
  - lia.
  - lia.
Defined.

(** C4 as stated fails: the image that grid_maker.py writes for an 8 x 8
    grid has 8 rows of 8 pixels, not [GRID_SIZE * CELL_SIZE] = 400; and
    symbols_maker.py writes no image at all for the all-zero grid. *)
Lemma exported_image_is_not_scaled :
  exists im,
    images_written
      (effects (GridMaker._save_png_current (disk_accepts "drawing.png") drawing8))
      = [("drawing.png", im)] /\
    length im = 8%nat /\
    Forall (fun row => length row = 8%nat) im /\
    length im <> Z.to_nat (GridMaker.GRID_SIZE * GridMaker.CELL_SIZE) /\
    images_written
      (effects (SymbolsMaker._save_png_current (disk_accepts "drawing.png")
                  SymbolsMaker.init))
      = [].
Proof.
  eexists. split; [reflexivity|]. split; [reflexivity|].
  split; [by repeat constructor|]. split; [|reflexivity].
  vm_compute. discriminate.
Qed.

Lemma exported_image_maps_cells_to_two_values_witness :
  exists im,
    images_written
      (effects (GridMaker._save_png_current (disk_accepts "drawing.png") drawing8))
      = [("drawing.png", im)] /\
    length im = 8%nat /\
    Forall (fun row => length row = 8%nat) im /\
    forall (r c : nat) (v : Z),
      cell (GridMaker.state drawing8) r c = Some v ->
      cell im r c = Some (if bool_decide (v = 1) then 0 else 255).
Proof.
  refine (proj1 (exported_image_maps_cells_to_two_values
                   drawing8 drawing5 (disk_accepts "drawing.png") _ _ _ _)).
  - apply (bool_decide_unpack _). by vm_compute.
  - apply (bool_decide_unpack _). by vm_compute.
  - discriminate.
  - reflexivity.
Defined.

(** * Further properties of the handlers *)

Lemma any_fill_zero (a : list (list Z)) : np.any (np.fill a 0) = false.
Proof.
  apply any_false. unfold np.fill. apply Forall_fmap, Forall_forall.
  intros row _. simpl. apply Forall_fmap, Forall_forall. by intros.
Qed.

Lemma fill_zero_twice (a : list (list Z)) : np.fill (np.fill a 0) 0 = np.fill a 0.
Proof.
  unfold np.fill. rewrite <- list_fmap_compose. apply list_fmap_ext.
  intros _ row _. simpl. rewrite <- list_fmap_compose. by apply list_fmap_ext.
Qed.

(** X1. Reset zeroes every cell, leaves the store as it is and, in
    symbols_maker.py, puts the label back to 0.  It shows "Lienzo limpio."
    in grid_maker.py exactly when called with [update_msg] (the button),
    shows nothing in symbols_maker.py, and resetting again changes
    nothing. *)
Theorem reset_zeroes_grid_and_keeps_store
  (a : GridMaker.GridDrawer) (b : SymbolsMaker.GridDrawer) (update_msg : bool) :
  grid_ok 8 (GridMaker.state a) ->
  grid_ok 5 (SymbolsMaker.state b) ->
  let oa := GridMaker._reset update_msg a in
  let ob := SymbolsMaker._reset b in
  (outcome oa = Ok tt /\
   GridMaker.state (final oa) = np.zeros 8 8 /\
   GridMaker.samples (final oa) = GridMaker.samples a /\
   effects oa = (if update_msg then [showinfo "Reiniciar" "Lienzo limpio."] else []) /\
   final (GridMaker._reset update_msg (final oa)) = final oa) /\
  (ob = (Ok tt,
         {| SymbolsMaker.state := np.zeros 5 5;
            SymbolsMaker.samples := SymbolsMaker.samples b;
            SymbolsMaker.shape_var := 0 |}, []) /\
   SymbolsMaker._reset (final ob) = ob).
Proof.
  intros Ha Hb oa ob. subst oa ob. split.
  - unfold GridMaker._reset. run.
    destruct update_msg; cbn; rewrite (fill_zeros 8) by done;
      (repeat split; f_equal; apply (fill_zeros 8 (np.zeros 8 8)), grid_ok_zeros).
  - unfold SymbolsMaker._reset. run. cbn.
    rewrite (fill_zeros 5) by done.
    repeat split; repeat f_equal; apply (fill_zeros 5 (np.zeros 5 5)), grid_ok_zeros.
Qed.

Lemma reset_zeroes_grid_and_keeps_store_witness :
  GridMaker.state (final (GridMaker._reset true drawing8)) = np.zeros 8 8 /\
  effects (GridMaker._reset true drawing8) = [showinfo "Reiniciar" "Lienzo limpio."] /\
  SymbolsMaker.shape_var (final (SymbolsMaker._reset drawing5)) = 0.
Proof.
  destruct (reset_zeroes_grid_and_keeps_store drawing8 drawing5 true)
    as [(_ & Hstate & _ & Heff & _) [Hb _]].
  - apply (bool_decide_unpack _). by vm_compute.
  - apply (bool_decide_unpack _). by vm_compute.
  - split; [exact Hstate|]. split; [exact Heff|]. by rewrite Hb.
Defined.

(** X2. A commit right after a reset is always refused: the handler warns
    that the drawing is empty and stores nothing, whatever was on the grid
    before. *)
Theorem commit_after_reset_is_refused
  (a : GridMaker.GridDrawer) (b : SymbolsMaker.GridDrawer) (update_msg : bool) :
  let oa := bind (GridMaker._reset update_msg) (fun _ => GridMaker._next) a in
  let ob := bind SymbolsMaker._reset (fun _ => SymbolsMaker._next) b in
  (outcome oa = Ok tt /\
   GridMaker.samples (final oa) = GridMaker.samples a /\
   last (effects oa)
     = Some (showwarning "Vacío"
               "El dibujo está vacío. Dibuja algo antes de pulsar Next.")) /\
  (outcome ob = Ok tt /\
   SymbolsMaker.samples (final ob) = SymbolsMaker.samples b /\
   effects ob = [showwarning "Warning" "The sample is empty."]).
Proof.
  intros oa ob. subst oa ob. split.
  - unfold bind at 1. unfold GridMaker._reset. run.
    destruct update_msg; cbn [fst snd]; rewrite gm_next_empty by apply any_fill_zero;
      done.
  - unfold bind at 1. unfold SymbolsMaker._reset. run.
    rewrite sm_next_empty by apply any_fill_zero. done.
Qed.



(** X4. In a well-formed state no pointer handler raises, shows a message,
    or touches the store or the label; it returns a well-formed grid. *)
Theorem pointer_handlers_only_touch_the_grid
  (a : GridMaker.GridDrawer) (b : SymbolsMaker.GridDrawer) (event : Tk.Event) :
  grid_ok 8 (GridMaker.state a) ->
  grid_ok 5 (SymbolsMaker.state b) ->
  Forall (fun handler => exists a',
            handler event a = (Ok tt, a', []) /\
            GridMaker.samples a' = GridMaker.samples a /\
            grid_ok 8 (GridMaker.state a'))
    [GridMaker._toggle_cell; GridMaker._paint_motion;
     GridMaker._erase_cell; GridMaker._erase_motion] /\
  Forall (fun handler => exists b',
            handler event b = (Ok tt, b', []) /\
            SymbolsMaker.samples b' = SymbolsMaker.samples b /\
            SymbolsMaker.shape_var b' = SymbolsMaker.shape_var b /\
            grid_ok 5 (SymbolsMaker.state b'))
    [SymbolsMaker._toggle_cell; SymbolsMaker._paint_motion;
     SymbolsMaker._erase_cell; SymbolsMaker._erase_motion].
Proof.
  intros Ha Hb.
  assert (is_bit 0 /\ is_bit 1) as [H0 H1] by (split; [by left|by right]).
  split.
  - destruct (GridMaker._coords_to_cell event) as [[r c]|] eqn:E.
    + destruct (gm_toggle_at _ _ _ _ Ha E) as (v & _ & Hbit & Ht).
      repeat apply Forall_cons_2; try apply Forall_nil_2; eexists.
      * split; [exact Ht|]. split; [done|]. apply grid_ok_set_cell; [done|].
        destruct Hbit as [-> | ->]; done.
      * split; [by apply (gm_paint_at _ r c)|]. split; [done|].
        by apply grid_ok_set_cell.
      * split; [by apply (gm_erase_at _ r c)|]. split; [done|].
        by apply grid_ok_set_cell.
      * split; [by apply (gm_erase_at _ r c)|]. split; [done|].
        by apply grid_ok_set_cell.
    + repeat apply Forall_cons_2; try apply Forall_nil_2; exists a;
        unfold GridMaker._erase_motion, GridMaker._toggle_cell,
          GridMaker._paint_motion, GridMaker._erase_cell; by rewrite E.
  - destruct (SymbolsMaker._coords_to_cell event) as [[r c]|] eqn:E.
    + destruct (sm_toggle_at _ _ _ _ Hb E) as (v & _ & Hbit & Ht).
      repeat apply Forall_cons_2; try apply Forall_nil_2; eexists.
      * split; [exact Ht|]. split; [done|]. split; [done|].
        apply grid_ok_set_cell; [done|]. destruct Hbit as [-> | ->]; done.
      * split; [by apply (sm_paint_at _ r c)|]. split; [done|]. split; [done|].
        by apply grid_ok_set_cell.
      * split; [by apply (sm_erase_at _ r c)|]. split; [done|]. split; [done|].
        by apply grid_ok_set_cell.
      * split; [by apply (sm_erase_at _ r c)|]. split; [done|]. split; [done|].
        by apply grid_ok_set_cell.
    + repeat apply Forall_cons_2; try apply Forall_nil_2; exists b;
        unfold SymbolsMaker._erase_motion, SymbolsMaker._toggle_cell,
          SymbolsMaker._paint_motion, SymbolsMaker._erase_cell; by rewrite E.
Qed.

Lemma pointer_handlers_only_touch_the_grid_witness :
  exists a',
    GridMaker._toggle_cell {| Tk.x := 399; Tk.y := 0 |} drawing8 = (Ok tt, a', []) /\
    GridMaker.samples a' = GridMaker.samples drawing8 /\
    grid_ok 8 (GridMaker.state a').
Proof.
  refine (Forall_inv
            (proj1 (pointer_handlers_only_touch_the_grid
                      drawing8 drawing5 {| Tk.x := 399; Tk.y := 0 |} _ _))).
  - apply (bool_decide_unpack _). by vm_compute.
  - apply (bool_decide_unpack _). by vm_compute.
Defined.

(** X5. Committing a drawing and then exporting writes the same table as
    exporting with the drawing still on the grid: the merge that export
    does is the commit. *)
Theorem commit_then_export_writes_the_same_table
  (a : GridMaker.GridDrawer) (b : SymbolsMaker.GridDrawer) (w : world) :
  np.any (GridMaker.state a) = true ->
  np.any (SymbolsMaker.state b) = true ->
  tables_written (effects (GridMaker._save_all w (final (GridMaker._next a))))
    = tables_written (effects (GridMaker._save_all w a)) /\
  tables_written (effects (SymbolsMaker._save_all w (final (SymbolsMaker._next b))))
    = tables_written (effects (SymbolsMaker._save_all w b)).
Proof.
  intros Hany8 Hany5. split.
  - rewrite (gm_next_drawn a Hany8). cbn zeta. rewrite !gm_save_all_cases. cbn zeta.
    cbn [GridMaker.state GridMaker.samples final fst snd].
    rewrite any_fill_zero, Hany8, app_nil_r, andb_false_r.
    rewrite (bool_decide_eq_false_2 (_ ++ [_] = [])) by (by destruct (GridMaker.samples a)).
    cbn [andb].
    destruct (bool_decide (filename w = "")); [done|].
    destruct (np.vstack _); [|done]. by destruct (disk w).
  - rewrite (sm_next_drawn b Hany5). cbn zeta. rewrite !sm_save_all_cases. cbn zeta.
    cbn [SymbolsMaker.state SymbolsMaker.samples SymbolsMaker.shape_var final fst snd].
    rewrite any_fill_zero, Hany5, app_nil_r.
    destruct (bool_decide (_ = [])); [done|].
    destruct (bool_decide (filename w = "")); [done|].
    destruct (np.array _); [|done]. by destruct (disk w).
Qed.

Lemma commit_then_export_writes_the_same_table_witness :
  tables_written
    (effects (GridMaker._save_all (disk_accepts "out.csv")
                (final (GridMaker._next drawing8))))
    = tables_written (effects (GridMaker._save_all (disk_accepts "out.csv") drawing8)).
Proof.
  refine (proj1 (commit_then_export_writes_the_same_table
                   drawing8 drawing5 (disk_accepts "out.csv") _ _)); reflexivity.
Defined.

(** X6. The drawing stays on the grid after an export, so exporting again
    merges it again.  After a cancelled export, the next successful one
    writes the drawing twice at the end of the table, in both programs.
    After a successful export, grid_maker.py (whose store was emptied)
    writes a table with the drawing alone, and symbols_maker.py (whose
    store was kept) writes the whole store with the drawing twice. *)
Theorem exporting_again_repeats_the_drawing
  (a : GridMaker.GridDrawer) (b : SymbolsMaker.GridDrawer) (cancel w : world) :
  gm_ok a ->
  sm_ok b ->
  np.any (GridMaker.state a) = true ->
  np.any (SymbolsMaker.state b) = true ->
  filename cancel = "" ->
  filename w <> "" ->
  disk w = None ->
  let d8 := np.flatten (GridMaker.state a) in
  let d5 := np.flatten (SymbolsMaker.state b) ++ [SymbolsMaker.shape_var b] in
  tables_written
    (effects (GridMaker._save_all w (final (GridMaker._save_all cancel a))))
    = [(filename w, csv_line <$> (GridMaker.samples a ++ [d8; d8]))] /\
  tables_written
    (effects (GridMaker._save_all w (final (GridMaker._save_all w a))))
    = [(filename w, [csv_line d8])] /\
  tables_written
    (effects (SymbolsMaker._save_all w (final (SymbolsMaker._save_all cancel b))))
    = [(filename w, csv_line <$> (SymbolsMaker.samples b ++ [d5; d5]))] /\
  tables_written
    (effects (SymbolsMaker._save_all w (final (SymbolsMaker._save_all w b))))
    = [(filename w, csv_line <$> (SymbolsMaker.samples b ++ [d5; d5]))].
Proof.
  intros [Hga Hsa] (Hgb & Hsb & Hlb) Hany8 Hany5 Hcancel Hname Hdisk d8 d5.
  assert (sample_ok 64 d8) as Hd8 by exact (sample_ok_flatten 8 _ Hga).
  assert (sample_ok 26 d5) as Hd5.
  { destruct (sample_ok_flatten 5 _ Hgb) as [Hlen Hbits]. split.
    - unfold d5. rewrite length_app, Hlen. done.
    - apply Forall_app. split; [done|by apply Forall_singleton]. }
  assert (Forall (sample_ok 64) (GridMaker.samples a ++ [d8; d8])) as Hrows8.
  { apply Forall_app. split; [done|]. repeat (apply Forall_cons_2; [done|]). apply Forall_nil_2. }
  assert (Forall (sample_ok 26) (SymbolsMaker.samples b ++ [d5; d5])) as Hrows5.
  { apply Forall_app. split; [done|]. repeat (apply Forall_cons_2; [done|]). apply Forall_nil_2. }
  assert (Forall (sample_ok 64) (GridMaker.samples a ++ [d8])) as Hrows8'.
  { apply Forall_app. split; [done|]. repeat (apply Forall_cons_2; [done|]). apply Forall_nil_2. }
  assert (Forall (sample_ok 26) (SymbolsMaker.samples b ++ [d5])) as Hrows5'.
  { apply Forall_app. split; [done|]. repeat (apply Forall_cons_2; [done|]). apply Forall_nil_2. }
  assert (forall rows x, bool_decide (rows ++ [x] = ([] : list (list Z))) = false)
    as Hne.
  { intros rows x. apply bool_decide_eq_false_2. by destruct rows. }
  assert (bool_decide (filename w = "") = false) as Hw
    by (by apply bool_decide_eq_false_2).
  assert (bool_decide (filename cancel = "") = true) as Hc
    by (by apply bool_decide_eq_true_2).
  repeat split.
  - rewrite (gm_save_all_cases cancel a). cbn zeta.
    rewrite Hany8, andb_false_r, Hc. cbn [final fst snd].
    rewrite gm_save_all_cases. cbn zeta. cbn [GridMaker.state GridMaker.samples].
    rewrite Hany8, andb_false_r, Hw, <- app_assoc. cbn [app]. fold d8.
    rewrite (vstack_ok 64) by (done || by destruct (GridMaker.samples a)).
    by rewrite Hdisk.
  - rewrite (gm_save_all_cases w a). cbn zeta.
    rewrite Hany8, andb_false_r, Hw. fold d8.
    rewrite (vstack_ok 64) by (done || by destruct (GridMaker.samples a)).
    rewrite Hdisk. cbn [final fst snd].
    rewrite gm_save_all_cases. cbn zeta. cbn [GridMaker.state GridMaker.samples].
    rewrite Hany8, andb_false_r, Hw. cbn [app]. fold d8.
    rewrite (vstack_ok 64) by (done || by apply Forall_singleton).
    by rewrite Hdisk.
  - rewrite (sm_save_all_cases cancel b). cbn zeta.
    cbn [SymbolsMaker.state SymbolsMaker.samples SymbolsMaker.shape_var].
    rewrite Hany5. fold d5. rewrite Hne, Hc. cbn [final fst snd].
    rewrite sm_save_all_cases. cbn zeta.
    cbn [SymbolsMaker.state SymbolsMaker.samples SymbolsMaker.shape_var].
    rewrite Hany5. fold d5. rewrite Hne, Hw, <- app_assoc. cbn [app].
    rewrite (array_ok 26) by done. by rewrite Hdisk.
  - rewrite (sm_save_all_cases w b). cbn zeta.
    cbn [SymbolsMaker.state SymbolsMaker.samples SymbolsMaker.shape_var].
    rewrite Hany5. fold d5. rewrite Hne, Hw.
    rewrite (array_ok 26) by done. rewrite Hdisk. cbn [final fst snd].
    rewrite sm_save_all_cases. cbn zeta.
    cbn [SymbolsMaker.state SymbolsMaker.samples SymbolsMaker.shape_var].
    rewrite Hany5. fold d5. rewrite Hne, Hw, <- app_assoc. cbn [app].
    rewrite (array_ok 26) by done. by rewrite Hdisk.
Qed.

Lemma exporting_again_repeats_the_drawing_witness :
  let w := disk_accepts "out.csv" in
  tables_written
    (effects (GridMaker._save_all w (final (GridMaker._save_all (disk_accepts "") drawing8))))
    = [("out.csv",
        csv_line <$> [np.flatten (GridMaker.state drawing8);
                      np.flatten (GridMaker.state drawing8)])].
Proof.
  intros w.
  refine (proj1 (exporting_again_repeats_the_drawing
                   drawing8 drawing5 (disk_accepts "") w _ _ _ _ _ _ _)).
  - apply (bool_decide_unpack _). by vm_compute.
  - apply (bool_decide_unpack _). by vm_compute.
  - reflexivity.
  - reflexivity.
  - reflexivity.
  - discriminate.
  - reflexivity.
Defined.

(** X7. Export-to-image never changes the widget state, whatever the grid,
    the path and the disk.  grid_maker.py never lets an exception out: a
    refused write ends in an error box with the text of the exception.
    symbols_maker.py shows no error box: a refused write leaves the handler
    as the exception itself.  A cancelled dialog writes no image in either
    program. *)
Theorem image_export_leaves_the_state_alone
  (a : GridMaker.GridDrawer) (b : SymbolsMaker.GridDrawer) (w : world) :
  let oa := GridMaker._save_png_current w a in
  let ob := SymbolsMaker._save_png_current w b in
  (final oa = a /\ outcome oa = Ok tt /\
   (filename w = "" -> existsb is_file_io (effects oa) = false) /\
   (forall exc, filename w <> "" -> disk w = Some exc ->
      images_written (effects oa) = [] /\
      last (effects oa)
        = Some (showerror "Error" ("No se pudo guardar: " +:+ str exc)))) /\
  (final ob = b /\ existsb is_error (effects ob) = false /\
   (filename w = "" -> outcome ob = Ok tt /\ existsb is_file_io (effects ob) = false) /\
   (forall exc, np.any (SymbolsMaker.state b) = true -> filename w <> "" ->
      disk w = Some exc ->
      outcome ob = Raise exc /\ images_written (effects ob) = []) /\
   (disk w = None -> outcome ob = Ok tt)).
Proof.
  intros oa ob. subst oa ob. split.
  - rewrite gm_save_png_cases. cbn zeta.
    destruct (bool_decide (filename w = "")) eqn:E.
    + apply bool_decide_eq_true in E.
      split; [done|]. split; [done|]. split; [done|]. by intros exc Hne.
    + apply bool_decide_eq_false in E. destruct (disk w) as [exc|].
      * split; [done|]. split; [done|]. split; [done|].
        intros exc' _ [= <-]. done.
      * split; [done|]. split; [done|]. split; [done|]. by intros exc' _.
  - rewrite sm_save_png_cases. cbn zeta.
    destruct (np.any (SymbolsMaker.state b)); cbn [negb].
    + destruct (bool_decide (filename w = "")) eqn:E.
      * apply bool_decide_eq_true in E.
        split; [done|]. split; [done|]. split; [done|].
        split; [by intros exc _ Hne|done].
      * apply bool_decide_eq_false in E. destruct (disk w) as [exc|].
        { split; [done|]. split; [done|]. split; [done|].
          split; [|done]. intros exc' _ _ [= <-]. done. }
        { split; [done|]. split; [done|]. split; [done|].
          split; [by intros exc' _ _|done]. }
    + split; [done|]. split; [done|]. split; [done|].
      split; [by intros exc Hany|done].
Qed.

Lemma image_export_leaves_the_state_alone_witness :
  let oa := GridMaker._save_png_current (disk_refuses "drawing.png") drawing8 in
  let ob := SymbolsMaker._save_png_current (disk_refuses "drawing.png") drawing5 in
  (images_written (effects oa) = [] /\
   last (effects oa)
     = Some (showerror "Error" ("No se pudo guardar: " +:+ "Permission denied"))) /\
  (outcome ob = Raise (OSError "Permission denied") /\ images_written (effects ob) = []).
Proof.
  intros oa ob.
  destruct (image_export_leaves_the_state_alone drawing8 drawing5
              (disk_refuses "drawing.png")) as [(_ & _ & _ & Ha) (_ & _ & _ & Hb & _)].
  split.
  - apply (Ha (OSError "Permission denied")); [discriminate|reflexivity].
  - apply (Hb (OSError "Permission denied")); [reflexivity|discriminate|reflexivity].
Defined.

(** ** The main loop *)

Lemma gm_bindings :
  GridMakerWidgets.bindings GridMakerWidgets._build_widgets
    = [("<Button-1>", GridMaker._toggle_cell);
       ("<B1-Motion>", GridMaker._paint_motion);
       ("<Button-3>", GridMaker._erase_cell);
       ("<B3-Motion>", GridMaker._erase_motion)].
Proof. reflexivity. Qed.

Lemma gm_buttons :
  GridMakerWidgets.buttons GridMakerWidgets._build_widgets
    = [("Next", method (fun _ => GridMaker._next));
       ("Guardar", method GridMaker._save_all);
       ("PNG actual", method GridMaker._save_png_current);
       ("Reiniciar", method (fun _ => GridMaker._reset true));
       ("Salir", destroy)].
Proof. reflexivity. Qed.

Lemma sm_bindings :
  SymbolsMakerWidgets.bindings SymbolsMakerWidgets._build_widgets
    = [("<Button-1>", SymbolsMaker._toggle_cell);
       ("<B1-Motion>", SymbolsMaker._paint_motion);
       ("<Button-3>", SymbolsMaker._erase_cell);
       ("<B3-Motion>", SymbolsMaker._erase_motion)].
Proof. reflexivity. Qed.

Lemma sm_buttons :
  SymbolsMakerWidgets.buttons SymbolsMakerWidgets._build_widgets
    = [("Next", method (fun _ => SymbolsMaker._next));
       ("Save CSV", method SymbolsMaker._save_all);
       ("Save PNG", method SymbolsMaker._save_png_current);
       ("Reset", method (fun _ => SymbolsMaker._reset));
       ("Exit", destroy)].
Proof. reflexivity. Qed.

Lemma sm_radiobuttons :
  SymbolsMakerWidgets.radiobuttons SymbolsMakerWidgets._build_widgets
    = [("Circle", 0); ("Cross", 1)].
Proof. reflexivity. Qed.

Lemma assoc_elem_of {A} (key : string) (table : list (string * A)) (v : A) :
  assoc key table = Some v -> (key, v) ∈ table.
Proof.
  induction table as [|[k x] table IH]; simpl; [done|].
  destruct (String.eqb key k) eqn:E.
  - apply String.eqb_eq in E as ->. intros [= ->]. apply list_elem_of_here.
  - intros H. apply list_elem_of_further, IH, H.
Qed.

(** Every command of grid_maker.py returns normally, whatever the state. *)
Lemma gm_commands_return (w : world) (update_msg : bool) (self : GridMaker.GridDrawer) :
  Forall (fun command => outcome (command self) = Ok tt)
    [GridMaker._next; GridMaker._save_all w; GridMaker._save_png_current w;
     GridMaker._reset update_msg].
Proof.
  repeat apply Forall_cons_2; try apply Forall_nil_2.
  - destruct (np.any (GridMaker.state self)) eqn:Hany.
    + by rewrite (gm_next_drawn _ Hany).
    + by rewrite (gm_next_empty _ Hany).
  - rewrite gm_save_all_cases. cbn zeta.
    destruct (bool_decide (GridMaker.samples self = []) && _); [done|].
    destruct (bool_decide (filename w = "")); [done|].
    destruct (np.vstack _); [|done]. by destruct (disk w).
  - rewrite gm_save_png_cases. cbn zeta.
    destruct (bool_decide (filename w = "")); [done|]. by destruct (disk w).
  - unfold GridMaker._reset. run. by destruct update_msg.
Qed.

(** In a well-formed state a command of symbols_maker.py returns normally
    unless it is an export whose write the disk refuses; then it raises
    the exception of the disk. *)
Lemma sm_commands_return (w : world) (self : SymbolsMaker.GridDrawer) :
  sm_ok self ->
  outcome (SymbolsMaker._next self) = Ok tt /\
  outcome (SymbolsMaker._reset self) = Ok tt /\
  Forall (fun export =>
            outcome (export self) = Ok tt \/
            exists exc, disk w = Some exc /\ outcome (export self) = Raise exc)
    [SymbolsMaker._save_all w; SymbolsMaker._save_png_current w].
Proof.
  intros (Hg & Hs & Hl). split; [|split].
  - destruct (np.any (SymbolsMaker.state self)) eqn:Hany.
    + by rewrite (sm_next_drawn _ Hany).
    + by rewrite (sm_next_empty _ Hany).
  - done.
  - repeat apply Forall_cons_2; try apply Forall_nil_2.
    + rewrite sm_save_all_cases. cbn zeta.
      destruct (bool_decide (_ = [])); [by left|].
      destruct (bool_decide (filename w = "")); [by left|].
      rewrite (array_ok 26).
      * destruct (disk w) as [exc|]; [right; by exists exc|by left].
      * cbn. apply Forall_app. split; [done|].
        destruct (np.any _); [|constructor]. apply Forall_singleton.
        destruct (sample_ok_flatten 5 _ Hg) as [Hlen Hbits]. split.
        -- rewrite length_app, Hlen. done.
        -- apply Forall_app. split; [done|by apply Forall_singleton].
    + rewrite sm_save_png_cases. cbn zeta.
      destruct (negb _); [by left|].
      destruct (bool_decide (filename w = "")); [by left|].
      destruct (disk w) as [exc|]; [right; by exists exc|by left].
Qed.

Lemma gm_pointer_returns (event : Tk.Event) (self : GridMaker.GridDrawer) :
  grid_ok 8 (GridMaker.state self) ->
  Forall (fun handler => outcome (handler event self) = Ok tt)
    [GridMaker._toggle_cell; GridMaker._paint_motion;
     GridMaker._erase_cell; GridMaker._erase_motion].
Proof.
  intros Hg. destruct (GridMaker._coords_to_cell event) as [[r c]|] eqn:E.
  - destruct (gm_toggle_at _ _ _ _ Hg E) as (v & _ & _ & Ht).
    repeat apply Forall_cons_2; try apply Forall_nil_2.
    + by rewrite Ht.
    + by rewrite (gm_paint_at _ r c).
    + by rewrite (gm_erase_at _ r c).
    + unfold GridMaker._erase_motion. by rewrite (gm_erase_at _ r c).
  - repeat apply Forall_cons_2; try apply Forall_nil_2;
      unfold GridMaker._erase_motion, GridMaker._toggle_cell,
        GridMaker._paint_motion, GridMaker._erase_cell; by rewrite E.
Qed.

Lemma sm_pointer_returns (event : Tk.Event) (self : SymbolsMaker.GridDrawer) :
  grid_ok 5 (SymbolsMaker.state self) ->
  Forall (fun handler => outcome (handler event self) = Ok tt)
    [SymbolsMaker._toggle_cell; SymbolsMaker._paint_motion;
     SymbolsMaker._erase_cell; SymbolsMaker._erase_motion].
Proof.
  intros Hg. destruct (SymbolsMaker._coords_to_cell event) as [[r c]|] eqn:E.
  - destruct (sm_toggle_at _ _ _ _ Hg E) as (v & _ & _ & Ht).
    repeat apply Forall_cons_2; try apply Forall_nil_2.
    + by rewrite Ht.
    + by rewrite (sm_paint_at _ r c).
    + by rewrite (sm_erase_at _ r c).
    + by rewrite sm_erase_motion_eq, (sm_erase_at _ r c).
  - repeat apply Forall_cons_2; try apply Forall_nil_2;
      unfold SymbolsMaker._erase_motion, SymbolsMaker._toggle_cell,
        SymbolsMaker._paint_motion, SymbolsMaker._erase_cell; by rewrite E.
Qed.

(** One turn of the main loop of grid_maker.py. *)
Lemma gm_callback (i : input) (w : world) (callback : M GridMaker.GridDrawer unit)
  (self : GridMaker.GridDrawer) :
  gm_ok self ->
  GridMakerWidgets.dispatch GridMakerWidgets._build_widgets i w = Some callback ->
  gm_ok (final (callback self)) /\ outcome (callback self) = Ok tt.
Proof.
  intros Hok. pose proof Hok as [Hg _].
  destruct i as [sequence event|text|text]; unfold GridMakerWidgets.dispatch.
  - rewrite gm_bindings.
    destruct (assoc sequence _) as [handler|] eqn:E; intros [= <-]; [|done].
    apply assoc_elem_of in E.
    pose proof (gm_ok_pointer event self Hok) as Hinv.
    pose proof (gm_pointer_returns event self Hg) as Hret.
    rewrite Forall_forall in Hinv, Hret.
    assert (handler ∈ [GridMaker._toggle_cell; GridMaker._paint_motion;
                       GridMaker._erase_cell; GridMaker._erase_motion]) as Hin.
    { apply (list_elem_of_fmap_2 snd) in E. exact E. }
    split; [by apply Hinv|by apply Hret].
  - rewrite gm_buttons.
    destruct (assoc text _) as [[m|]|] eqn:E; intros [= <-]; [|done].
    apply assoc_elem_of in E.
    pose proof (gm_ok_commands w true self Hok) as Hinv.
    pose proof (gm_commands_return w true self) as Hret.
    rewrite Forall_forall in Hinv, Hret.
    assert (m w ∈ [GridMaker._next; GridMaker._save_all w;
                   GridMaker._save_png_current w; GridMaker._reset true]) as Hin.
    { apply list_elem_of_In in E. simpl in E.
      destruct E as [E|[E|[E|[E|[E|[]]]]]]; simplify_eq;
        apply list_elem_of_In; simpl; tauto. }
    split; [by apply Hinv|by apply Hret].
  - by intros [= <-].
Qed.

(** One turn of the main loop of symbols_maker.py. *)
Lemma sm_callback (i : input) (w : world) (callback : M SymbolsMaker.GridDrawer unit)
  (self : SymbolsMaker.GridDrawer) :
  sm_ok self ->
  SymbolsMakerWidgets.dispatch SymbolsMakerWidgets._build_widgets i w = Some callback ->
  sm_ok (final (callback self)) /\
  (outcome (callback self) = Ok tt \/
   exists text exc,
     i = button text /\ (text = "Save CSV" \/ text = "Save PNG") /\
     disk w = Some exc /\ outcome (callback self) = Raise exc).
Proof.
  intros Hok. pose proof Hok as (Hg & Hs & Hl).
  destruct i as [sequence event|text|text]; unfold SymbolsMakerWidgets.dispatch.
  - rewrite sm_bindings.
    destruct (assoc sequence _) as [handler|] eqn:E; intros [= <-]; [|by split; [|left]].
    apply assoc_elem_of in E.
    pose proof (sm_ok_pointer event self Hok) as Hinv.
    pose proof (sm_pointer_returns event self Hg) as Hret.
    rewrite Forall_forall in Hinv, Hret.
    assert (handler ∈ [SymbolsMaker._toggle_cell; SymbolsMaker._paint_motion;
                       SymbolsMaker._erase_cell; SymbolsMaker._erase_motion]) as Hin.
    { apply (list_elem_of_fmap_2 snd) in E. exact E. }
    split; [by apply Hinv|left; by apply Hret].
  - rewrite sm_buttons.
    destruct (assoc text _) as [[m|]|] eqn:E; intros [= <-]; [|by split; [|left]].
    apply assoc_elem_of in E.
    pose proof (sm_ok_commands w self Hok) as Hinv.
    destruct (sm_commands_return w self Hok) as (Hnext & Hreset & Hexport).
    rewrite Forall_forall in Hinv.
    apply list_elem_of_In in E. simpl in E.
    destruct E as [E|[E|[E|[E|[E|[]]]]]]; simplify_eq.
    + split; [|by left]. apply Hinv. apply list_elem_of_In. simpl. tauto.
    + split; [apply Hinv; apply list_elem_of_In; simpl; tauto|].
      destruct (Forall_inv Hexport) as [Hr|(exc & Hd & Hr)]; [by left|].
      right. exists "Save CSV", exc. split; [done|]. split; [by left|]. by split.
    + split; [apply Hinv; apply list_elem_of_In; simpl; tauto|].
      destruct (Forall_inv (Forall_inv_tail Hexport)) as [Hr|(exc & Hd & Hr)]; [by left|].
      right. exists "Save PNG", exc. split; [done|]. split; [by right|]. by split.
    + split; [|by left]. apply Hinv. apply list_elem_of_In. simpl. tauto.
  - rewrite sm_radiobuttons.
    destruct (assoc text _) as [value|] eqn:E; intros [= <-]; [|by split; [|left]].
    apply assoc_elem_of, list_elem_of_In in E. simpl in E.
    split; [|by left]. cbn.
    split; [done|]. split; [done|].
    destruct E as [E|[E|[]]]; simplify_eq; [by left|by right].
Qed.

Lemma gm_mainloop_ok (inputs : list (input * world)) (self : GridMaker.GridDrawer) :
  gm_ok self ->
  gm_ok (GridMakerWidgets.mainloop inputs self).1.1 /\
  (GridMakerWidgets.mainloop inputs self).2 = [].
Proof.
  revert self. induction inputs as [|[i w] rest IH]; intros self Hok; [done|].
  cbn [GridMakerWidgets.mainloop].
  destruct (GridMakerWidgets.dispatch _ i w) as [callback|] eqn:D; [|done].
  destruct (gm_callback i w callback self Hok D) as [Hok' Hret].
  destruct (callback self) as [[r self'] l]. cbn in Hok', Hret.
  destruct (IH self' Hok') as [Hfinal Hnone].
  destruct (GridMakerWidgets.mainloop rest self') as [[self'' l'] reported].
  cbn in *. by subst.
Qed.

Lemma sm_mainloop_ok (inputs : list (input * world)) (self : SymbolsMaker.GridDrawer) :
  sm_ok self ->
  sm_ok (SymbolsMakerWidgets.mainloop inputs self).1.1 /\
  Forall (fun exc =>
            exists text w,
              (button text, w) ∈ inputs /\
              (text = "Save CSV" \/ text = "Save PNG") /\ disk w = Some exc)
    (SymbolsMakerWidgets.mainloop inputs self).2.
Proof.
  revert self. induction inputs as [|[i w] rest IH]; intros self Hok; [done|].
  cbn [SymbolsMakerWidgets.mainloop].
  destruct (SymbolsMakerWidgets.dispatch _ i w) as [callback|] eqn:D; [|done].
  destruct (sm_callback i w callback self Hok D) as [Hok' Hret].
  destruct (callback self) as [[r self'] l]. cbn in Hok', Hret.
  destruct (IH self' Hok') as [Hfinal Hrep].
  destruct (SymbolsMakerWidgets.mainloop rest self') as [[self'' l'] reported].
  cbn in *. split; [exact Hfinal|].
  assert (Forall (fun exc =>
                    exists text w0,
                      (button text, w0) ∈ (i, w) :: rest /\
                      (text = "Save CSV" \/ text = "Save PNG") /\ disk w0 = Some exc)
            reported) as Hrep'.
  { eapply Forall_impl; [exact Hrep|]. intros exc (text & w0 & Hin & Htext & Hd).
    exists text, w0. split; [by apply list_elem_of_further|]. split; assumption. }
  destruct Hret as [->|(text & exc & -> & Htext & Hd & ->)]; [exact Hrep'|].
  apply Forall_cons_2; [|exact Hrep'].
  exists text, w. split; [apply list_elem_of_here|]. split; assumption.
Qed.

(** X8. Whatever the user does, in whatever order and whatever the dialog
    and the disk answer, the widget stays well formed: the grid keeps its
    side and holds only 0 and 1, every stored sample has the full length
    (64, or 26 with the label) and holds only 0 and 1, and the label is 0
    or 1. *)
Theorem every_session_keeps_the_state_well_formed
  (inputs8 inputs5 : list (input * world)) :
  gm_ok (GridMakerWidgets.main inputs8).1.1 /\
  sm_ok (SymbolsMakerWidgets.main inputs5).1.1.
Proof.
  split.
  - apply gm_mainloop_ok, gm_ok_init.
  - apply sm_mainloop_ok, sm_ok_init.
Qed.

(** X9. In a session of grid_maker.py no exception ever leaves a handler.
    In a session of symbols_maker.py the only exceptions that leave a
    handler are those of a disk that refuses a write during "Save CSV" or
    "Save PNG"; in particular no handler ever fails on an index. *)
Theorem exceptions_that_reach_the_main_loop
  (inputs8 inputs5 : list (input * world)) :
  (GridMakerWidgets.main inputs8).2 = [] /\
  Forall (fun exc =>
            exists text w,
              (button text, w) ∈ inputs5 /\
              (text = "Save CSV" \/ text = "Save PNG") /\ disk w = Some exc)
    (SymbolsMakerWidgets.main inputs5).2.
Proof.
  split.
  - apply gm_mainloop_ok, gm_ok_init.
  - apply sm_mainloop_ok, sm_ok_init.
Qed.

(** The exception of symbols_maker.py does reach the main loop. *)
Example refused_write_reaches_the_main_loop :
  (SymbolsMakerWidgets.main
     [(pointer "<Button-1>" {| Tk.x := 10; Tk.y := 10 |}, disk_accepts "");
      (button "Save CSV", disk_refuses "out.csv")]).2
    = [OSError "Permission denied"].
Proof. reflexivity. Qed.

Lemma tables_written_app (l l' : list effect) :
  tables_written (l ++ l') = tables_written l ++ tables_written l'.
Proof. unfold tables_written. apply omap_app. Qed.

Lemma gm_pointer_samples (event : Tk.Event) (self : GridMaker.GridDrawer) :
  Forall (fun handler =>
            GridMaker.samples (final (handler event self)) = GridMaker.samples self /\
            effects (handler event self) = [])
    [GridMaker._toggle_cell; GridMaker._paint_motion;
     GridMaker._erase_cell; GridMaker._erase_motion].
Proof.
  repeat apply Forall_cons_2; try apply Forall_nil_2;
    unfold GridMaker._erase_motion, GridMaker._toggle_cell, GridMaker._paint_motion,
      GridMaker._erase_cell;
    (destruct (GridMaker._coords_to_cell event) as [[r c]|]; [|done]);
    unfold GridMaker.state_getitem, GridMaker.state_setitem; run;
    (destruct (np.getitem _ r c) as [v|]; [|done]); cbn.
  - by destruct (np.setitem _ _ _ _).
  - destruct (v =? 0); [|done]. cbn. by destruct (np.setitem _ _ _ _).
  - destruct (negb (v =? 0)); [|done]. cbn. by destruct (np.setitem _ _ _ _).
  - destruct (negb (v =? 0)); [|done]. cbn. by destruct (np.setitem _ _ _ _).
Qed.

Lemma sm_pointer_samples (event : Tk.Event) (self : SymbolsMaker.GridDrawer) :
  Forall (fun handler =>
            SymbolsMaker.samples (final (handler event self)) = SymbolsMaker.samples self)
    [SymbolsMaker._toggle_cell; SymbolsMaker._paint_motion;
     SymbolsMaker._erase_cell; SymbolsMaker._erase_motion].
Proof.
  repeat apply Forall_cons_2; try apply Forall_nil_2;
    unfold SymbolsMaker._erase_motion, SymbolsMaker._toggle_cell,
      SymbolsMaker._paint_motion, SymbolsMaker._erase_cell;
    (destruct (SymbolsMaker._coords_to_cell event) as [[r c]|]; [|done]);
    unfold SymbolsMaker.state_getitem, SymbolsMaker.state_setitem; run.
  - destruct (np.getitem _ r c) as [v|]; [|done]. cbn. by destruct (np.setitem _ _ _ _).
  - by destruct (np.setitem _ _ _ _).
  - by destruct (np.setitem _ _ _ _).
  - by destruct (np.setitem _ _ _ _).
Qed.

Lemma sm_commands_grow (w : world) (self : SymbolsMaker.GridDrawer) :
  Forall (fun command =>
            SymbolsMaker.samples self `prefix_of`
              SymbolsMaker.samples (final (command self)))
    [SymbolsMaker._next; SymbolsMaker._save_all w;
     SymbolsMaker._save_png_current w; SymbolsMaker._reset].
Proof.
  repeat apply Forall_cons_2; try apply Forall_nil_2.
  - destruct (np.any (SymbolsMaker.state self)) eqn:Hany.
    + rewrite (sm_next_drawn _ Hany). cbn. by apply prefix_app_r.
    + by rewrite (sm_next_empty _ Hany).
  - rewrite sm_save_all_cases. cbn zeta.
    assert (SymbolsMaker.samples self `prefix_of`
              SymbolsMaker.samples self
                ++ (if np.any (SymbolsMaker.state self)
                    then [np.flatten (SymbolsMaker.state self)
                            ++ [SymbolsMaker.shape_var self]]
                    else [])) as Hp by (by apply prefix_app_r).
    destruct (bool_decide (_ = [])); [exact Hp|].
    destruct (bool_decide (filename w = "")); [exact Hp|].
    destruct (np.array _); [|exact Hp]. destruct (disk w); exact Hp.
  - rewrite sm_save_png_cases. cbn zeta.
    destruct (negb _); [done|].
    destruct (bool_decide (filename w = "")); [done|]. by destruct (disk w).
  - done.
Qed.

Lemma gm_commands_grow (w : world) (update_msg : bool) (self : GridMaker.GridDrawer) :
  Forall (fun command =>
            tables_written (effects (command self)) = [] ->
            GridMaker.samples self `prefix_of`
              GridMaker.samples (final (command self)))
    [GridMaker._next; GridMaker._save_all w; GridMaker._save_png_current w;
     GridMaker._reset update_msg].
Proof.
  repeat apply Forall_cons_2; try apply Forall_nil_2; intros Hnone.
  - destruct (np.any (GridMaker.state self)) eqn:Hany.
    + rewrite (gm_next_drawn _ Hany). cbn. by apply prefix_app_r.
    + by rewrite (gm_next_empty _ Hany).
  - revert Hnone. rewrite gm_save_all_cases. cbn zeta.
    assert (GridMaker.samples self `prefix_of`
              GridMaker.samples self
                ++ (if np.any (GridMaker.state self)
                    then [np.flatten (GridMaker.state self)] else [])) as Hp
      by (by apply prefix_app_r).
    destruct (bool_decide (GridMaker.samples self = []) && _); [done|].
    destruct (bool_decide (filename w = "")); [intros _; exact Hp|].
    destruct (np.vstack _); [|intros _; exact Hp].
    destruct (disk w); [intros _; exact Hp|]. cbn. discriminate.
  - rewrite gm_save_png_cases. cbn zeta.
    destruct (bool_decide (filename w = "")); [done|]. by destruct (disk w).
  - unfold GridMaker._reset. run. by destruct update_msg.
Qed.

Lemma gm_callback_grows (i : input) (w : world)
  (callback : M GridMaker.GridDrawer unit) (self : GridMaker.GridDrawer) :
  GridMakerWidgets.dispatch GridMakerWidgets._build_widgets i w = Some callback ->
  tables_written (effects (callback self)) = [] ->
  GridMaker.samples self `prefix_of` GridMaker.samples (final (callback self)).
Proof.
  destruct i as [sequence event|text|text]; unfold GridMakerWidgets.dispatch.
  - rewrite gm_bindings.
    destruct (assoc sequence _) as [handler|] eqn:E; intros [= <-] _; [|done].
    apply assoc_elem_of in E.
    pose proof (gm_pointer_samples event self) as Hs. rewrite Forall_forall in Hs.
    destruct (Hs handler) as [-> _]; [|done].
    apply (list_elem_of_fmap_2 snd) in E. exact E.
  - rewrite gm_buttons.
    destruct (assoc text _) as [[m|]|] eqn:E; intros [= <-]; [|done].
    apply assoc_elem_of in E.
    pose proof (gm_commands_grow w true self) as Hs. rewrite Forall_forall in Hs.
    apply Hs.
    apply list_elem_of_In in E. simpl in E.
    destruct E as [E|[E|[E|[E|[E|[]]]]]]; simplify_eq;
      apply list_elem_of_In; simpl; tauto.
  - by intros [= <-] _.
Qed.

Lemma sm_callback_grows (i : input) (w : world)
  (callback : M SymbolsMaker.GridDrawer unit) (self : SymbolsMaker.GridDrawer) :
  SymbolsMakerWidgets.dispatch SymbolsMakerWidgets._build_widgets i w = Some callback ->
  SymbolsMaker.samples self `prefix_of` SymbolsMaker.samples (final (callback self)).
Proof.
  destruct i as [sequence event|text|text]; unfold SymbolsMakerWidgets.dispatch.
  - rewrite sm_bindings.
    destruct (assoc sequence _) as [handler|] eqn:E; intros [= <-]; [|done].
    apply assoc_elem_of in E.
    pose proof (sm_pointer_samples event self) as Hs. rewrite Forall_forall in Hs.
    rewrite (Hs handler); [done|].
    apply (list_elem_of_fmap_2 snd) in E. exact E.
  - rewrite sm_buttons.
    destruct (assoc text _) as [[m|]|] eqn:E; intros [= <-]; [|done].
    apply assoc_elem_of in E.
    pose proof (sm_commands_grow w self) as Hs. rewrite Forall_forall in Hs.
    apply Hs.
    apply list_elem_of_In in E. simpl in E.
    destruct E as [E|[E|[E|[E|[E|[]]]]]]; simplify_eq;
      apply list_elem_of_In; simpl; tauto.
  - rewrite sm_radiobuttons.
    destruct (assoc text _) as [value|]; by intros [= <-].
Qed.

Lemma gm_mainloop_grows (inputs : list (input * world)) (self : GridMaker.GridDrawer) :
  tables_written (GridMakerWidgets.mainloop inputs self).1.2.*1 = [] ->
  GridMaker.samples self `prefix_of`
    GridMaker.samples (GridMakerWidgets.mainloop inputs self).1.1.
Proof.
  revert self. induction inputs as [|[i w] rest IH]; intros self; [done|].
  cbn [GridMakerWidgets.mainloop].
  destruct (GridMakerWidgets.dispatch _ i w) as [callback|] eqn:D; [|done].
  pose proof (gm_callback_grows i w callback self D) as Hstep.
  destruct (callback self) as [[r self'] l].
  specialize (IH self').
  destruct (GridMakerWidgets.mainloop rest self') as [[self'' l'] reported].
  cbn in *. rewrite fmap_app, tables_written_app.
  intros [Hl Hl']%app_eq_nil.
  etrans; [exact (Hstep Hl)|exact (IH Hl')].
Qed.

Lemma sm_mainloop_grows (inputs : list (input * world)) (self : SymbolsMaker.GridDrawer) :
  SymbolsMaker.samples self `prefix_of`
    SymbolsMaker.samples (SymbolsMakerWidgets.mainloop inputs self).1.1.
Proof.
  revert self. induction inputs as [|[i w] rest IH]; intros self; [done|].
  cbn [SymbolsMakerWidgets.mainloop].
  destruct (SymbolsMakerWidgets.dispatch _ i w) as [callback|] eqn:D; [|done].
  pose proof (sm_callback_grows i w callback self D) as Hstep.
  destruct (callback self) as [[r self'] l].
  specialize (IH self').
  destruct (SymbolsMakerWidgets.mainloop rest self') as [[self'' l'] reported].
  cbn in *. etrans; [exact Hstep|exact IH].
Qed.

(** X10. Stored samples are never altered, reordered or dropped, whatever
    the user does: in symbols_maker.py the store at any time begins with
    the store of any earlier time (nothing ever empties it, so every export
    writes all the samples of the session again); in grid_maker.py the same
    holds for as long as no table has been written. *)
Theorem stored_samples_are_kept
  (inputs8 inputs5 : list (input * world))
  (a : GridMaker.GridDrawer) (b : SymbolsMaker.GridDrawer) :
  (tables_written (GridMakerWidgets.mainloop inputs8 a).1.2.*1 = [] ->
   GridMaker.samples a `prefix_of`
     GridMaker.samples (GridMakerWidgets.mainloop inputs8 a).1.1) /\
  SymbolsMaker.samples b `prefix_of`
    SymbolsMaker.samples (SymbolsMakerWidgets.mainloop inputs5 b).1.1.
Proof.
  split; [apply gm_mainloop_grows|apply sm_mainloop_grows].
Qed.

Lemma stored_samples_are_kept_witness :
  let a := {| GridMaker.state := GridMaker.state drawing8;
              GridMaker.samples := [replicate 64 1] |} in
  let inputs :=
    [(button "Next", disk_accepts "");
     (pointer "<Button-1>" {| Tk.x := 120; Tk.y := 30 |}, disk_accepts "");
     (button "Guardar", disk_refuses "out.csv")] in
  GridMaker.samples a `prefix_of`
    GridMaker.samples (GridMakerWidgets.mainloop inputs a).1.1.
Proof.
  intros a inputs.
  refine (proj1 (stored_samples_are_kept inputs [] a drawing5) _).
  reflexivity.
Defined.

(** ** The canvas *)

Lemma gm_canvas_size :
  Canvas.width (GridMakerWidgets.canvas GridMakerWidgets._build_widgets) = 400 /\
  Canvas.height (GridMakerWidgets.canvas GridMakerWidgets._build_widgets) = 400.
Proof. by vm_compute. Qed.

Lemma below_8 (n : Z) :
  0 <= n < 8 -> n = 0 \/ n = 1 \/ n = 2 \/ n = 3 \/ n = 4 \/ n = 5 \/ n = 6 \/ n = 7.
Proof. lia. Qed.

Lemma gm_cell_items (row col : Z) :
  0 <= row < 8 -> 0 <= col < 8 ->
  let widgets := GridMakerWidgets._build_widgets in
  let id := 2 * (row * 8 + col) + 1 in
  GridMakerWidgets.rects widgets !! (row, col) = Some id /\
  Canvas.find (GridMakerWidgets.canvas widgets) id
    = Some (Canvas.rectangle (col * 50) (row * 50) (col * 50 + 50) (row * 50 + 50)
              "gray" "white") /\
  Canvas.find (GridMakerWidgets.canvas widgets) (id + 1)
    = Some (Canvas.text (py.float (col * 50 + 25)) (py.float (row * 50 + 25))
              (pretty (row * 8 + col)) "gray70" (Some ("Helvetica", 15, "bold"))).
Proof.
  intros Hrow Hcol.
  destruct (below_8 row Hrow) as [->|[->|[->|[->|[->|[->|[->| ->]]]]]]];
    destruct (below_8 col Hcol) as [->|[->|[->|[->|[->|[->|[->| ->]]]]]]];
    by vm_compute.
Qed.

Lemma gm_rects_keys :
  Forall (fun kv : Z * Z * Z =>
            (0 <= kv.1.1 < 8 /\ 0 <= kv.1.2 < 8) /\ kv.2 = 2 * (kv.1.1 * 8 + kv.1.2) + 1)
    (map_to_list (GridMakerWidgets.rects GridMakerWidgets._build_widgets)).
Proof. apply (bool_decide_unpack _). by vm_compute. Qed.

Lemma sm_canvas_size :
  Canvas.width (SymbolsMakerWidgets.canvas SymbolsMakerWidgets._build_widgets) = 250 /\
  Canvas.height (SymbolsMakerWidgets.canvas SymbolsMakerWidgets._build_widgets) = 250.
Proof. by vm_compute. Qed.

Lemma below_5 (n : Z) : 0 <= n < 5 -> n = 0 \/ n = 1 \/ n = 2 \/ n = 3 \/ n = 4.
Proof. lia. Qed.

Lemma sm_cell_items (row col : Z) :
  0 <= row < 5 -> 0 <= col < 5 ->
  let widgets := SymbolsMakerWidgets._build_widgets in
  let id := 2 * (row * 5 + col) + 1 in
  SymbolsMakerWidgets.rects widgets !! (row, col) = Some id /\
  Canvas.find (SymbolsMakerWidgets.canvas widgets) id
    = Some (Canvas.rectangle (col * 50) (row * 50) (col * 50 + 50) (row * 50 + 50)
              "gray" "") /\
  Canvas.find (SymbolsMakerWidgets.canvas widgets) (id + 1)
    = Some (Canvas.text (py.float (col * 50 + 25)) (py.float (row * 50 + 25))
              (pretty (row * 5 + col)) "lightgray" None).
Proof.
  intros Hrow Hcol.
  destruct (below_5 row Hrow) as [->|[->|[->|[->| ->]]]];
    destruct (below_5 col Hcol) as [->|[->|[->|[->| ->]]]];
    by vm_compute.
Qed.

Lemma sm_rects_keys :
  Forall (fun kv : Z * Z * Z =>
            (0 <= kv.1.1 < 5 /\ 0 <= kv.1.2 < 5) /\ kv.2 = 2 * (kv.1.1 * 5 + kv.1.2) + 1)
    (map_to_list (SymbolsMakerWidgets.rects SymbolsMakerWidgets._build_widgets)).
Proof. apply (bool_decide_unpack _). by vm_compute. Qed.

(** A pixel lies in the block of side [size] that starts at [k * size]
    exactly when its quotient by [size] is [k]. *)
Lemma block_of_pixel (p k size : Z) :
  0 < size -> (k * size <= p < k * size + size <-> p / size = k).
Proof.
  intros Hsize. split.
  - intros Hp. symmetry. apply Z.div_unique with (r := p - k * size); lia.
  - intros <-. pose proof (Z.div_mod p size). pose proof (Z.mod_pos_bound p size). lia.
Qed.

Lemma gm_coords_in_block (x y row col : Z) :
  0 <= row < 8 -> 0 <= col < 8 ->
  col * 50 <= x < col * 50 + 50 -> row * 50 <= y < row * 50 + 50 ->
  GridMaker._coords_to_cell {| Tk.x := x; Tk.y := y |} = Some (row, col).
Proof.
  intros Hrow Hcol Hx%block_of_pixel Hy%block_of_pixel; [|lia..].
  unfold GridMaker._coords_to_cell, GridMaker.CELL_SIZE, GridMaker.GRID_SIZE.
  cbn [Tk.x Tk.y]. rewrite Hx, Hy.
  destruct Hrow, Hcol.
  by rewrite !(proj2 (Z.leb_le _ _)), !(proj2 (Z.ltb_lt _ _)).
Qed.

Lemma sm_coords_in_block (x y row col : Z) :
  0 <= row < 5 -> 0 <= col < 5 ->
  col * 50 <= x < col * 50 + 50 -> row * 50 <= y < row * 50 + 50 ->
  SymbolsMaker._coords_to_cell {| Tk.x := x; Tk.y := y |} = Some (row, col).
Proof.
  intros Hrow Hcol Hx%block_of_pixel Hy%block_of_pixel; [|lia..].
  unfold SymbolsMaker._coords_to_cell, SymbolsMaker.CELL_SIZE, SymbolsMaker.GRID_SIZE.
  cbn [Tk.x Tk.y]. rewrite Hx, Hy.
  destruct Hrow, Hcol.
  by rewrite !(proj2 (Z.leb_le _ _)), !(proj2 (Z.ltb_lt _ _)).
Qed.

(** X11. Every cell that a pointer event can address has an entry in
    [self.rects] (the handlers' lookups there cannot fail), and that entry
    is the rectangle drawn under the pointer. *)
Theorem addressed_cell_has_the_rectangle_under_the_pointer
  (e8 e5 : Tk.Event) (cell8 cell5 : Z * Z) :
  GridMaker._coords_to_cell e8 = Some cell8 ->
  SymbolsMaker._coords_to_cell e5 = Some cell5 ->
  (exists id x1 y1 x2 y2 outline fill,
      GridMakerWidgets.rects GridMakerWidgets._build_widgets !! cell8 = Some id /\
      Canvas.find (GridMakerWidgets.canvas GridMakerWidgets._build_widgets) id
        = Some (Canvas.rectangle x1 y1 x2 y2 outline fill) /\
      x1 <= Tk.x e8 < x2 /\ y1 <= Tk.y e8 < y2) /\
  (exists id x1 y1 x2 y2 outline fill,
      SymbolsMakerWidgets.rects SymbolsMakerWidgets._build_widgets !! cell5 = Some id /\
      Canvas.find (SymbolsMakerWidgets.canvas SymbolsMakerWidgets._build_widgets) id
        = Some (Canvas.rectangle x1 y1 x2 y2 outline fill) /\
      x1 <= Tk.x e5 < x2 /\ y1 <= Tk.y e5 < y2).
Proof.
  intros E8 E5. destruct cell8 as [r8 c8], cell5 as [r5 c5]. split.
  - destruct (gm_coords_some _ _ _ E8) as (Hr & Hc & Hrow & Hcol).
    destruct (gm_cell_items r8 c8 Hrow Hcol) as (Hid & Hrect & _).
    eexists _, _, _, _, _, _, _. split; [exact Hid|]. split; [exact Hrect|].
    unfold GridMaker.CELL_SIZE in *.
    split; apply block_of_pixel; (lia || by symmetry).
  - destruct (sm_coords_some _ _ _ E5) as (Hr & Hc & Hrow & Hcol).
    destruct (sm_cell_items r5 c5 Hrow Hcol) as (Hid & Hrect & _).
    eexists _, _, _, _, _, _, _. split; [exact Hid|]. split; [exact Hrect|].
    unfold SymbolsMaker.CELL_SIZE in *.
    split; apply block_of_pixel; (lia || by symmetry).
Qed.

(** X12. Conversely, every pixel inside the rectangle that [self.rects]
    holds for a cell addresses that cell: what is drawn and what is hit
    agree, and [self.rects] has no entry for anything but a cell of the
    grid. *)
Theorem every_pixel_of_a_rectangle_addresses_its_cell
  (cell8 cell5 : Z * Z) (id8 id5 : Z) (x8 y8 x5 y5 : Z)
  (x1 y1 x2 y2 x1' y1' x2' y2' : Z) (outline fill outline' fill' : string) :
  GridMakerWidgets.rects GridMakerWidgets._build_widgets !! cell8 = Some id8 ->
  Canvas.find (GridMakerWidgets.canvas GridMakerWidgets._build_widgets) id8
    = Some (Canvas.rectangle x1 y1 x2 y2 outline fill) ->
  x1 <= x8 < x2 -> y1 <= y8 < y2 ->
  SymbolsMakerWidgets.rects SymbolsMakerWidgets._build_widgets !! cell5 = Some id5 ->
  Canvas.find (SymbolsMakerWidgets.canvas SymbolsMakerWidgets._build_widgets) id5
    = Some (Canvas.rectangle x1' y1' x2' y2' outline' fill') ->
  x1' <= x5 < x2' -> y1' <= y5 < y2' ->
  GridMaker._coords_to_cell {| Tk.x := x8; Tk.y := y8 |} = Some cell8 /\
  SymbolsMaker._coords_to_cell {| Tk.x := x5; Tk.y := y5 |} = Some cell5.
Proof.
  intros Hid8 Hrect8 Hx8 Hy8 Hid5 Hrect5 Hx5 Hy5. split.
  - apply elem_of_map_to_list in Hid8.
    pose proof (proj1 (Forall_forall _ _) gm_rects_keys _ Hid8) as [[Hrow Hcol] Hid].
    destruct cell8 as [row col]. cbn in Hrow, Hcol, Hid.
    destruct (gm_cell_items row col Hrow Hcol) as (_ & Hrect & _).
    cbn zeta in Hrect. rewrite <- Hid, Hrect8 in Hrect. injection Hrect as -> -> -> -> _ _.
    by apply gm_coords_in_block.
  - apply elem_of_map_to_list in Hid5.
    pose proof (proj1 (Forall_forall _ _) sm_rects_keys _ Hid5) as [[Hrow Hcol] Hid].
    destruct cell5 as [row col]. cbn in Hrow, Hcol, Hid.
    destruct (sm_cell_items row col Hrow Hcol) as (_ & Hrect & _).
    cbn zeta in Hrect. rewrite <- Hid, Hrect5 in Hrect. injection Hrect as -> -> -> -> _ _.
    by apply sm_coords_in_block.
Qed.

(** X13. The number printed in a cell is the index of that cell in the
    exported vector: the text item created with the rectangle of cell
    ([row], [col]) sits at the centre of that rectangle, a pixel that
    addresses the cell, and reads [row * N + col], the position at which
    flattening puts the value of the cell. *)
Theorem the_number_in_a_cell_is_its_index_in_the_vector
  (row8 col8 row5 col5 : Z) (g8 g5 : list (list Z)) :
  0 <= row8 < 8 -> 0 <= col8 < 8 -> grid_ok 8 g8 ->
  0 <= row5 < 5 -> 0 <= col5 < 5 -> grid_ok 5 g5 ->
  (exists id,
      GridMakerWidgets.rects GridMakerWidgets._build_widgets !! (row8, col8) = Some id /\
      Canvas.find (GridMakerWidgets.canvas GridMakerWidgets._build_widgets) (id + 1)
        = Some (Canvas.text (py.float (col8 * 50 + 25)) (py.float (row8 * 50 + 25))
                  (pretty (row8 * 8 + col8)) "gray70" (Some ("Helvetica", 15, "bold"))) /\
      GridMaker._coords_to_cell {| Tk.x := col8 * 50 + 25; Tk.y := row8 * 50 + 25 |}
        = Some (row8, col8) /\
      np.flatten g8 !! Z.to_nat (row8 * 8 + col8)
        = cell g8 (Z.to_nat row8) (Z.to_nat col8)) /\
  (exists id,
      SymbolsMakerWidgets.rects SymbolsMakerWidgets._build_widgets !! (row5, col5)
        = Some id /\
      Canvas.find (SymbolsMakerWidgets.canvas SymbolsMakerWidgets._build_widgets) (id + 1)
        = Some (Canvas.text (py.float (col5 * 50 + 25)) (py.float (row5 * 50 + 25))
                  (pretty (row5 * 5 + col5)) "lightgray" None) /\
      SymbolsMaker._coords_to_cell {| Tk.x := col5 * 50 + 25; Tk.y := row5 * 50 + 25 |}
        = Some (row5, col5) /\
      np.flatten g5 !! Z.to_nat (row5 * 5 + col5)
        = cell g5 (Z.to_nat row5) (Z.to_nat col5)).
Proof.
  intros Hrow8 Hcol8 Hg8 Hrow5 Hcol5 Hg5. split.
  - destruct (gm_cell_items row8 col8 Hrow8 Hcol8) as (Hid & _ & Htext).
    eexists. split; [exact Hid|]. split; [exact Htext|].
    split; [apply gm_coords_in_block; lia|].
    replace (Z.to_nat (row8 * 8 + col8)) with (Z.to_nat row8 * 8 + Z.to_nat col8)%nat
      by lia.
    apply flatten_lookup; [by apply grid_ok_rows|lia].
  - destruct (sm_cell_items row5 col5 Hrow5 Hcol5) as (Hid & _ & Htext).
    eexists. split; [exact Hid|]. split; [exact Htext|].
    split; [apply sm_coords_in_block; lia|].
    replace (Z.to_nat (row5 * 5 + col5)) with (Z.to_nat row5 * 5 + Z.to_nat col5)%nat
      by lia.
    apply flatten_lookup; [by apply grid_ok_rows|lia].
Qed.

(** X14. A pointer event addresses a cell exactly when it lies on the
    canvas: the grid covers the whole canvas and nothing else. *)
Theorem pointer_addresses_a_cell_iff_on_the_canvas (event : Tk.Event) :
  (is_Some (GridMaker._coords_to_cell event) <->
   0 <= Tk.x event < Canvas.width (GridMakerWidgets.canvas GridMakerWidgets._build_widgets) /\
   0 <= Tk.y event < Canvas.height (GridMakerWidgets.canvas GridMakerWidgets._build_widgets)) /\
  (is_Some (SymbolsMaker._coords_to_cell event) <->
   0 <= Tk.x event
     < Canvas.width (SymbolsMakerWidgets.canvas SymbolsMakerWidgets._build_widgets) /\
   0 <= Tk.y event
     < Canvas.height (SymbolsMakerWidgets.canvas SymbolsMakerWidgets._build_widgets)).
Proof.
  destruct gm_canvas_size as [-> ->]. destruct sm_canvas_size as [-> ->].
  pose proof (Z.div_mod (Tk.x event) 50). pose proof (Z.mod_pos_bound (Tk.x event) 50).
  pose proof (Z.div_mod (Tk.y event) 50). pose proof (Z.mod_pos_bound (Tk.y event) 50).
  split.
  - rewrite <- not_eq_None_Some, gm_coords_none.
    unfold GridMaker.CELL_SIZE, GridMaker.GRID_SIZE.
    split; [intros Hin%dec_stable|intros Hin Hout; apply Hout]; lia.
  - rewrite <- not_eq_None_Some, sm_coords_none.
    unfold SymbolsMaker.CELL_SIZE, SymbolsMaker.GRID_SIZE.
    split; [intros Hin%dec_stable|intros Hin Hout; apply Hout]; lia.
Qed.

(** X15. Different cells have different rectangles, so recolouring the
    rectangle of one cell never repaints another. *)
Theorem different_cells_have_different_rectangles
  (cell cell' cell5 cell5' : Z * Z) (id id5 : Z) :
  GridMakerWidgets.rects GridMakerWidgets._build_widgets !! cell = Some id ->
  GridMakerWidgets.rects GridMakerWidgets._build_widgets !! cell' = Some id ->
  SymbolsMakerWidgets.rects SymbolsMakerWidgets._build_widgets !! cell5 = Some id5 ->
  SymbolsMakerWidgets.rects SymbolsMakerWidgets._build_widgets !! cell5' = Some id5 ->
  cell = cell' /\ cell5 = cell5'.
Proof.
  intros H1%elem_of_map_to_list H2%elem_of_map_to_list
         H3%elem_of_map_to_list H4%elem_of_map_to_list.
  pose proof (proj1 (Forall_forall _ _) gm_rects_keys _ H1) as [[? ?] ?].
  pose proof (proj1 (Forall_forall _ _) gm_rects_keys _ H2) as [[? ?] ?].
  pose proof (proj1 (Forall_forall _ _) sm_rects_keys _ H3) as [[? ?] ?].
  pose proof (proj1 (Forall_forall _ _) sm_rects_keys _ H4) as [[? ?] ?].
  destruct cell, cell', cell5, cell5'. cbn in *.
  split; f_equal; lia.
Qed.

Lemma addressed_cell_has_the_rectangle_under_the_pointer_witness :
  exists id x1 y1 x2 y2 outline fill,
    GridMakerWidgets.rects GridMakerWidgets._build_widgets !! (7, 0) = Some id /\
    Canvas.find (GridMakerWidgets.canvas GridMakerWidgets._build_widgets) id
      = Some (Canvas.rectangle x1 y1 x2 y2 outline fill) /\
    x1 <= Tk.x {| Tk.x := 49; Tk.y := 350 |} < x2 /\
    y1 <= Tk.y {| Tk.x := 49; Tk.y := 350 |} < y2.
Proof.
  refine (proj1 (addressed_cell_has_the_rectangle_under_the_pointer
                   {| Tk.x := 49; Tk.y := 350 |} {| Tk.x := 0; Tk.y := 0 |}
                   (7, 0) (0, 0) _ _)); reflexivity.
Defined.

Lemma every_pixel_of_a_rectangle_addresses_its_cell_witness :
  GridMaker._coords_to_cell {| Tk.x := 120; Tk.y := 70 |} = Some (1, 2) /\
  SymbolsMaker._coords_to_cell {| Tk.x := 249; Tk.y := 200 |} = Some (4, 4).
Proof.
  refine (every_pixel_of_a_rectangle_addresses_its_cell
            (1, 2) (4, 4) 21 49 120 70 249 200
            100 50 150 100 200 200 250 250 "gray" "white" "gray" "" _ _ _ _ _ _ _ _).
  - by vm_compute.
  - by vm_compute.
  - lia.
  - lia.
  - by vm_compute.
  - by vm_compute.
  - lia.
  - lia.
Defined.

Lemma the_number_in_a_cell_is_its_index_in_the_vector_witness :
  exists id,
    GridMakerWidgets.rects GridMakerWidgets._build_widgets !! (7, 7) = Some id /\
    Canvas.find (GridMakerWidgets.canvas GridMakerWidgets._build_widgets) (id + 1)
      = Some (Canvas.text (py.float (7 * 50 + 25)) (py.float (7 * 50 + 25))
                (pretty (7 * 8 + 7)) "gray70" (Some ("Helvetica", 15, "bold"))) /\
    GridMaker._coords_to_cell {| Tk.x := 7 * 50 + 25; Tk.y := 7 * 50 + 25 |}
      = Some (7, 7) /\
    np.flatten (GridMaker.state drawing8) !! Z.to_nat (7 * 8 + 7)
      = cell (GridMaker.state drawing8) (Z.to_nat 7) (Z.to_nat 7).
Proof.
  refine (proj1 (the_number_in_a_cell_is_its_index_in_the_vector
                   7 7 4 4 (GridMaker.state drawing8) (SymbolsMaker.state drawing5)
                   _ _ _ _ _ _)).
  - lia.
  - lia.
  - apply (bool_decide_unpack _). by vm_compute.
  - lia.
  - lia.
  - apply (bool_decide_unpack _). by vm_compute.
Defined.

Lemma different_cells_have_different_rectangles_witness :
  ((3, 4) : Z * Z) = (3, 4) /\ ((0, 1) : Z * Z) = (0, 1).
Proof.
  refine (different_cells_have_different_rectangles
            (3, 4) (3, 4) (0, 1) (0, 1) 57 3 _ _ _ _); by vm_compute.
Defined.

(** ** Messages and validation *)



(** X17. Export-to-table warns exactly when there is nothing to save: the
    store is empty and the grid is blank.  The two programs test this at
    different points (grid_maker.py before merging the drawing,
    symbols_maker.py after) and agree. *)
Theorem export_warns_iff_nothing_to_save
  (a : GridMaker.GridDrawer) (b : SymbolsMaker.GridDrawer) (w : world) :
  (existsb is_warning (effects (GridMaker._save_all w a)) = true <->
   GridMaker.samples a = [] /\ np.any (GridMaker.state a) = false) /\
  (existsb is_warning (effects (SymbolsMaker._save_all w b)) = true <->
   SymbolsMaker.samples b = [] /\ np.any (SymbolsMaker.state b) = false).
Proof.
  split.
  - rewrite gm_save_all_cases. cbn zeta.
    destruct (bool_decide (GridMaker.samples a = [])) eqn:Hs;
      destruct (np.any (GridMaker.state a)) eqn:Hany; cbn [andb negb].
    + split; [|by intros [_ ?]].
      destruct (bool_decide (filename w = "")); [done|].
      destruct (np.vstack _); [|done]. by destruct (disk w).
    + apply bool_decide_eq_true in Hs. by split.
    + split; [|by intros [_ ?]].
      destruct (bool_decide (filename w = "")); [done|].
      destruct (np.vstack _); [|done]. by destruct (disk w).
    + apply bool_decide_eq_false in Hs. split; [|by intros [? _]].
      destruct (bool_decide (filename w = "")); [done|].
      destruct (np.vstack _); [|done]. by destruct (disk w).
  - rewrite sm_save_all_cases. cbn zeta.
    cbn [SymbolsMaker.samples].
    destruct (np.any (SymbolsMaker.state b)) eqn:Hany.
    + rewrite (bool_decide_eq_false_2 (_ = [])) by (by destruct (SymbolsMaker.samples b)).
      split; [|by intros [_ ?]].
      destruct (bool_decide (filename w = "")); [done|].
      destruct (np.array _); [|done]. by destruct (disk w).
    + rewrite app_nil_r.
      destruct (bool_decide (SymbolsMaker.samples b = [])) eqn:Hs.
      * apply bool_decide_eq_true in Hs. by split.
      * apply bool_decide_eq_false in Hs. split; [|by intros [? _]].
        destruct (bool_decide (filename w = "")); [done|].
        destruct (np.array _); [|done]. by destruct (disk w).
Qed.

